(** * sql-agent: the A2A chat client and its streamed-event reduction

    A shallow embedding of [src/sql_agent/chat_interface.py]: the
    [A2AClient] class ([send_message], [_send_request],
    [_send_streaming_request]) and the per-turn part of the Streamlit
    [main].  Python values that come out of [json.loads] are modelled
    as a small JSON universe with the dynamic operations the client
    applies to them ([in], subscripting, truthiness, iteration), each
    of which may raise. *)

From Stdlib Require Import String Ascii ZArith List Bool Lia.
From Stdlib Require Import Floats DecimalString.
Import ListNotations.
Local Open Scope string_scope.
Local Open Scope list_scope.
#[local] Set Warnings "-register-all".

(** ** Python values produced by [json.loads] *)

Module Py.

(** A JSON document after [json.loads]: [None], [bool], [int], [float],
    [str], [list] and [dict].  A [dict] is kept as the list of its
    items in insertion order; lookups take the first item with the key. *)
Inductive json : Type :=
| JNull
| JBool (b : bool)
| JInt (z : Z)
| JFloat (f : float)
| JStr (s : string)
| JList (xs : list json)
| JDict (items : list (string * json)).

Definition pydict : Type := list (string * json).

(** The exceptions the client code can meet: from its own subscripts
    and [in] tests, and from [json.loads]. *)
Inductive exn : Type :=
| KeyError (key : string)
| TypeError
| JSONDecodeError
| ValueError
| RecursionError.

(** A computation that returns or raises. *)
Inductive res (A : Type) : Type :=
| Ok (a : A)
| Raise (e : exn).
Arguments Ok {A} a.
Arguments Raise {A} e.

Definition bind {A B : Type} (m : res A) (k : A -> res B) : res B :=
  match m with
  | Ok a => k a
  | Raise e => Raise e
  end.

Definition rmap {A B : Type} (f : A -> B) (m : res A) : res B :=
  bind m (fun a => Ok (f a)).

Module Notations.
Notation "x <- m ;; k" := (bind m (fun x => k))
  (at level 61, m at next level, right associativity).
End Notations.
Import Notations.

(** *** dict primitives *)

Fixpoint dict_get (k : string) (d : pydict) : option json :=
  match d with
  | [] => None
  | (k', v) :: d' => if String.eqb k k' then Some v else dict_get k d'
  end.

Definition dict_has (k : string) (d : pydict) : bool :=
  match dict_get k d with
  | Some _ => true
  | None => false
  end.

(** [d[k] = v]: overwrite in place when the key exists, otherwise add
    the item at the end. *)
Fixpoint dict_set (k : string) (v : json) (d : pydict) : pydict :=
  match d with
  | [] => [(k, v)]
  | (k', v') :: d' =>
      if String.eqb k k' then (k', v) :: d' else (k', v') :: dict_set k v d'
  end.

(** *** str primitives *)

Fixpoint is_prefix (p s : string) : bool :=
  match p, s with
  | EmptyString, _ => true
  | String a p', String b s' => Ascii.eqb a b && is_prefix p' s'
  | String _ _, EmptyString => false
  end.

(** [sub in s] for two strings. *)
Fixpoint is_substring (sub s : string) : bool :=
  is_prefix sub s ||
  match s with
  | EmptyString => false
  | String _ s' => is_substring sub s'
  end.

Fixpoint chars (s : string) : list json :=
  match s with
  | EmptyString => []
  | String a s' => JStr (String a EmptyString) :: chars s'
  end.

(** *** the dynamic operations *)

(** [bool(v)]. *)
Definition truthy (v : json) : bool :=
  match v with
  | JNull => false
  | JBool b => b
  | JInt z => negb (Z.eqb z 0)
  | JFloat f => negb (PrimFloat.eqb f PrimFloat.zero)
  | JStr s => negb (String.eqb s "")
  | JList xs => match xs with [] => false | _ :: _ => true end
  | JDict items => match items with [] => false | _ :: _ => true end
  end.

(** [v == s] for a string literal [s]. *)
Definition eq_str (v : json) (s : string) : bool :=
  match v with
  | JStr t => String.eqb t s
  | _ => false
  end.

(** [k in v] for a string literal [k]: key membership on a dict,
    substring test on a str, element membership on a list; the other
    values are not containers. *)
Definition contains (k : string) (v : json) : res bool :=
  match v with
  | JDict items => Ok (dict_has k items)
  | JStr s => Ok (is_substring k s)
  | JList xs => Ok (existsb (fun x => eq_str x k) xs)
  | JNull | JBool _ | JInt _ | JFloat _ => Raise TypeError
  end.

(** [v[k]] for a string literal [k]: only a dict can be subscripted by
    a string. *)
Definition getitem (v : json) (k : string) : res json :=
  match v with
  | JDict items =>
      match dict_get k items with
      | Some x => Ok x
      | None => Raise (KeyError k)
      end
  | _ => Raise TypeError
  end.

(** The items a [for] loop draws from [v]: the elements of a list, the
    keys of a dict, the characters of a str. *)
Definition iter (v : json) : res (list json) :=
  match v with
  | JList xs => Ok xs
  | JDict items => Ok (map (fun kv => JStr (fst kv)) items)
  | JStr s => Ok (chars s)
  | JNull | JBool _ | JInt _ | JFloat _ => Raise TypeError
  end.

(** [str(n)] for an int. *)
Definition str_of_int (z : Z) : string :=
  NilZero.string_of_int (Z.to_int z).

End Py.

Import Py Py.Notations.

(** ** Server-sent events and the reduction loop *)

(** One event yielded by [SSEClient.events()].  The loop looks at
    [event.data] in two ways only: its truthiness, and what
    [json.loads] makes of it.  An event is therefore kept as one of:
    no data (absent or empty [data]), data that [json.loads] turns into
    a document, and non-empty data that [json.loads] rejects: text
    that is not JSON (a JSONDecodeError), JSON with an integer literal
    longer than the interpreter converts (a ValueError), and JSON
    nested deeper than the interpreter recurses (a RecursionError). *)
Inductive Event : Type :=
| NoData
| Payload (doc : json)
| Garbled
| Oversized
| TooDeep.

(** [bool(event.data)]. *)
Definition has_data (event : Event) : bool :=
  match event with
  | NoData => false
  | Payload _ | Garbled | Oversized | TooDeep => true
  end.

(** [json.loads(event.data)], for an event with data. *)
Definition json_loads (event : Event) : res json :=
  match event with
  | Payload doc => Ok doc
  | NoData | Garbled => Raise JSONDecodeError
  | Oversized => Raise ValueError
  | TooDeep => Raise RecursionError
  end.

(** How one pass through the loop body ends: by falling through (or
    [continue]) to the next event, or by [break]. *)
Inductive Ctl : Type := Next | Break.

(** [final_response] as the loop starts (line 73). *)
Definition initial_response : pydict :=
  [("status", JStr "incomplete"); ("content", JStr "")].

(** Lines 87-89: the [for part in message_parts] loop. *)
Fixpoint for_parts (parts : list json) (final_response : pydict) : res pydict :=
  match parts with
  | [] => Ok final_response
  | part :: parts' =>
      ty <- getitem part "type" ;;
      if eq_str ty "text"
      then text <- getitem part "text" ;;
           for_parts parts' (dict_set "content" text final_response)
      else for_parts parts' final_response
  end.

(** Lines 83-89: the task status update of a [result]. *)
Definition status_update (result : json) (final_response : pydict) : res pydict :=
  has_status <- contains "status" result ;;
  if has_status
  then status <- getitem result "status" ;;
       has_message <- contains "message" status ;;
       cond <- (if has_message
                then message <- getitem status "message" ;; Ok (truthy message)
                else Ok false) ;;
       if cond
       then message <- getitem status "message" ;;
            message_parts <- getitem message "parts" ;;
            parts <- iter message_parts ;;
            for_parts parts final_response
       else Ok final_response
  else Ok final_response.

(** Line 92: ["final" in result and result["final"]]. *)
Definition is_final (result : json) : res bool :=
  has_final <- contains "final" result ;;
  if has_final
  then final <- getitem result "final" ;; Ok (truthy final)
  else Ok false.

(** Lines 79-94: the [if "result" in data] block. *)
Definition result_block (data : json) (final_response : pydict)
  : res (Ctl * pydict) :=
  has_result <- contains "result" data ;;
  if has_result
  then result <- getitem data "result" ;;
       final_response <- status_update result final_response ;;
       final <- is_final result ;;
       if final
       then Ok (Break, dict_set "status" (JStr "complete") final_response)
       else Ok (Next, final_response)
  else Ok (Next, final_response).

(** Lines 97-100: the [if "error" in data] block. *)
Definition error_block (data : json) (final_response : pydict)
  : res (Ctl * pydict) :=
  has_error <- contains "error" data ;;
  if has_error
  then error <- getitem data "error" ;;
       Ok (Break,
           dict_set "error" error
             (dict_set "status" (JStr "error") final_response))
  else Ok (Next, final_response).

(** Lines 75-100: the body of [for event in client.events()]. *)
Definition loop_body (event : Event) (final_response : pydict)
  : res (Ctl * pydict) :=
  if negb (has_data event)
  then Ok (Next, final_response)
  else
    data <- json_loads event ;;
    r <- result_block data final_response ;;
    match r with
    | (Break, final_response) => Ok (Break, final_response)
    | (Next, final_response) => error_block data final_response
    end.

(** ** The HTTP exchange *)

(** What [requests.post] is called with. *)
Record Request : Type := {
  url : string;
  body : json;
  headers : list (string * string);
  stream : bool
}.

(** What the server answers to one post: the status code and the body
    under the three views the client takes of it: [response.text],
    [response.json()] and the events [SSEClient(response).events()]
    yields until the stream ends. *)
Record HttpReply : Type := {
  status_code : Z;
  text : string;
  json_doc : res json;
  events : list Event
}.

(** The network as the client sees it: the requests posted so far,
    the events of the body not read yet and the events the SSE
    iterator has handed to the loop. *)
Record Net : Type := {
  sent : list Request;
  unread : list Event;
  yielded : list Event
}.

Definition fresh_net : Net :=
  {| sent := []; unread := []; yielded := [] |}.

(** [requests.post(...)]: one request goes out.  Without [stream] the
    whole body is downloaded at once: no event is left to read. *)
Definition requests_post (req : Request) (reply : HttpReply) (n : Net) : Net :=
  {| sent := sent n ++ [req];
     unread := if stream req then events reply else [];
     yielded := [] |}.

(** [response.text] on a streamed response: the rest of the body is
    read as text. *)
Definition read_text (n : Net) : Net :=
  {| sent := sent n; unread := []; yielded := yielded n |}.

(** The iterator hands [event] to the loop; [rest] stays unread. *)
Definition yield (event : Event) (rest : list Event) (n : Net) : Net :=
  {| sent := sent n; unread := rest; yielded := yielded n ++ [event] |}.

(** The iterator finds the end of the stream. *)
Definition end_of_stream (n : Net) : Net :=
  {| sent := sent n; unread := []; yielded := yielded n |}.

(** Lines 74-100: [for event in client.events()], over the events
    still unread.  An exception or a [break] leaves the rest of the
    stream unread. *)
Fixpoint for_events (evs : list Event) (final_response : pydict) (n : Net)
  : res pydict * Net :=
  match evs with
  | [] => (Ok final_response, end_of_stream n)
  | event :: rest =>
      let n := yield event rest n in
      match loop_body event final_response with
      | Raise e => (Raise e, n)
      | Ok (Break, final_response) => (Ok final_response, n)
      | Ok (Next, final_response) => for_events rest final_response n
      end
  end.

(** ** A2AClient *)

Record A2AClient : Type := {
  server_url : string;
  session_id : string
}.

(** Lines 11-13; [uuid] is the uuid the constructor draws. *)
Definition new_A2AClient (server_url uuid : string) : A2AClient :=
  {| server_url := server_url; session_id := uuid |}.

(** The JSON-RPC envelope both paths build (lines 26-39 and 49-62). *)
Definition make_payload (self : A2AClient) (method task_id message : string)
  : json :=
  JDict
    [("jsonrpc", JStr "2.0");
     ("id", JStr task_id);
     ("method", JStr method);
     ("params",
      JDict
        [("id", JStr task_id);
         ("sessionId", JStr (session_id self));
         ("message",
          JDict
            [("role", JStr "user");
             ("parts",
              JList [JDict [("type", JStr "text"); ("text", JStr message)]])]);
         ("acceptedOutputModes", JList [JStr "text"])])].

(** [{"error": f"Error: {response.status_code} - {response.text}"}]. *)
Definition http_error (reply : HttpReply) : json :=
  JDict
    [("error",
      JStr ("Error: " ++ str_of_int (status_code reply) ++ " - " ++ text reply))].

(** Lines 24-45. *)
Definition _send_request (self : A2AClient) (task_id message : string)
    (reply : HttpReply) (n : Net) : res json * Net :=
  let payload := make_payload self "tasks/send" task_id message in
  let n :=
    requests_post
      {| url := server_url self; body := payload; headers := [];
         stream := false |} reply n in
  if negb (status_code reply =? 200)%Z
  then (Ok (http_error reply), n)
  else (json_doc reply, n).

(** Lines 47-102. *)
Definition _send_streaming_request (self : A2AClient)
    (task_id message : string) (reply : HttpReply) (n : Net)
  : res json * Net :=
  let payload := make_payload self "tasks/sendSubscribe" task_id message in
  let headers :=
    [("Accept", "text/event-stream"); ("Content-Type", "application/json")] in
  let n :=
    requests_post
      {| url := server_url self; body := payload; headers := headers;
         stream := true |} reply n in
  if negb (status_code reply =? 200)%Z
  then (Ok (http_error reply), read_text n)
  else
    let '(r, n) := for_events (unread n) initial_response n in
    (rmap JDict r, n).

(** Lines 15-22; [task_id] is the uuid the call draws. *)
Definition send_message (self : A2AClient) (task_id message : string)
    (stream : bool) (reply : HttpReply) (n : Net) : res json * Net :=
  if stream
  then _send_streaming_request self task_id message reply n
  else _send_request self task_id message reply n.

(** ** The chat shell *)

Record ChatMessage : Type := {
  role : string;
  content : json
}.

(** The text handed to [message_placeholder.error]:
    [f"Error: {response['error']}"] or [f"Error: {str(e)}"]. *)
Inductive ErrorText : Type :=
| ErrorOfValue (v : json)
| ErrorOfException (e : exn).

(** What the shell puts on the page, in order. *)
Inductive UiOp : Type :=
| ChatBlock (role : string)
| Write (v : json)
| PlaceholderText (s : string)
| PlaceholderWrite (v : json)
| PlaceholderError (t : ErrorText).

(** [st.session_state] and the page. *)
Record Shell : Type := {
  messages : list ChatMessage;
  client : A2AClient;
  page : list UiOp
}.

Definition show (ops : list UiOp) (sh : Shell) : Shell :=
  {| messages := messages sh; client := client sh; page := page sh ++ ops |}.

Definition append_message (m : ChatMessage) (sh : Shell) : Shell :=
  {| messages := messages sh ++ [m]; client := client sh; page := page sh |}.

(** Lines 139-144, inside the [try]: what is done with the response. *)
Definition show_response (response : json) (sh : Shell) : res unit * Shell :=
  match contains "error" response with
  | Raise e => (Raise e, sh)
  | Ok true =>
      match getitem response "error" with
      | Raise e => (Raise e, sh)
      | Ok v => (Ok tt, show [PlaceholderError (ErrorOfValue v)] sh)
      end
  | Ok false =>
      match getitem response "content" with
      | Raise e => (Raise e, sh)
      | Ok c =>
          let sh := show [PlaceholderWrite c] sh in
          match getitem response "content" with
          | Raise e => (Raise e, sh)
          | Ok c' =>
              (Ok tt, append_message {| role := "assistant"; content := c' |} sh)
          end
      end
  end.

(** Lines 145-146: the [except Exception] handler. *)
Definition except_handler (r : res unit) (sh : Shell) : Shell :=
  match r with
  | Ok _ => sh
  | Raise e => show [PlaceholderError (ErrorOfException e)] sh
  end.

(** Lines 117-146: a run of [main] in which the user submitted
    [prompt], on a session state that lines 109-115 have initialised;
    [task_id] is the uuid [send_message] draws. *)
Definition main (prompt task_id : string) (reply : HttpReply)
    (sh : Shell) (n : Net) : Shell * Net :=
  let sh :=
    show (flat_map (fun m => [ChatBlock (role m); Write (content m)])
            (messages sh)) sh in
  let sh := append_message {| role := "user"; content := JStr prompt |} sh in
  let sh := show [ChatBlock "user"; Write (JStr prompt)] sh in
  let sh := show [ChatBlock "assistant"; PlaceholderText "Thinking..."] sh in
  let '(r, n) := send_message (client sh) task_id prompt true reply n in
  match r with
  | Raise e => (except_handler (Raise e) sh, n)
  | Ok response =>
      let '(r, sh) := show_response response sh in
      (except_handler r sh, n)
  end.

(** [st.session_state] as a run of the script finds it: on the first
    run of a browser session neither key is there. *)
Record SessionState : Type := {
  st_messages : option (list ChatMessage);
  st_client : option A2AClient
}.

Definition new_session : SessionState :=
  {| st_messages := None; st_client := None |}.

(** Lines 108-115: a key that is in the session state is left alone; a
    missing one is set.  [server_url] is what the sidebar input holds
    and [uuid] what [A2AClient.__init__] draws, when it is called. *)
Definition init_session (server_url uuid : string) (ss : SessionState)
  : SessionState :=
  let ss :=
    match st_messages ss with
    | None => {| st_messages := Some []; st_client := st_client ss |}
    | Some _ => ss
    end in
  match st_client ss with
  | None =>
      {| st_messages := st_messages ss;
         st_client := Some (new_A2AClient server_url uuid) |}
  | Some _ => ss
  end.

(** What one run of the script is given: the sidebar input, the uuid
    for a new client, the prompt if the user submitted one, the uuid
    for the task and what the server answers. *)
Record Run : Type := {
  run_url : string;
  run_uuid : string;
  run_prompt : option string;
  run_task : string;
  run_reply : HttpReply
}.

(** Lines 105-146: one run of the script.  Streamlit runs the script
    from the top on every interaction: the page is drawn from nothing
    each time and the session state is what stays from one run to the
    next.  Without a submitted prompt the run draws the history and
    stops. *)
Definition script_run (r : Run) (ss : SessionState) (n : Net)
  : SessionState * list UiOp * Net :=
  let ss := init_session (run_url r) (run_uuid r) ss in
  match st_messages ss, st_client ss with
  | Some ms, Some c =>
      match run_prompt r with
      | Some prompt =>
          let '(sh, n) :=
            main prompt (run_task r) (run_reply r)
              {| messages := ms; client := c; page := [] |} n in
          ({| st_messages := Some (messages sh);
              st_client := Some (client sh) |},
           page sh, n)
      | None =>
          (ss,
           flat_map (fun m => [ChatBlock (role m); Write (content m)]) ms,
           n)
      end
  | _, _ => (ss, [], n)
  end.

(** The script run again and again. *)
Fixpoint script_runs (rs : list Run) (ss : SessionState) (n : Net)
  : SessionState * Net :=
  match rs with
  | [] => (ss, n)
  | r :: rs' =>
      let '(ss, _, n) := script_run r ss n in
      script_runs rs' ss n
  end.

(** ** Reading documents: the shapes the claims speak of *)

(** [v.k] when [v] is an object that has the field. *)
Definition field (k : string) (v : json) : option json :=
  match v with
  | JDict items => dict_get k items
  | _ => None
  end.

Definition carries (k : string) (v : json) : bool :=
  match field k v with
  | Some _ => true
  | None => false
  end.

(** [result.final] is the JSON value [true]. *)
Definition final_true (data : json) : bool :=
  match field "result" data with
  | Some result =>
      match field "final" result with
      | Some (JBool true) => true
      | _ => false
      end
  | None => false
  end.

(** A content part: an object with a [type]; a part of type "text"
    has a [text]. *)
Definition wf_part (part : json) : bool :=
  match field "type" part with
  | Some ty => if eq_str ty "text" then carries "text" part else true
  | None => false
  end.

(** A message: [null], or an object whose [parts] is an array of
    content parts. *)
Definition wf_message (message : json) : bool :=
  match message with
  | JNull => true
  | JDict items =>
      match dict_get "parts" items with
      | Some (JList parts) => forallb wf_part parts
      | _ => false
      end
  | _ => false
  end.

Definition wf_status (status : json) : bool :=
  match status with
  | JDict items =>
      match dict_get "message" items with
      | Some message => wf_message message
      | None => true
      end
  | _ => false
  end.

(** A result: an object; [status], when present, is a status object;
    [final], when present, is a boolean. *)
Definition wf_result (result : json) : bool :=
  match result with
  | JDict items =>
      match dict_get "status" items with
      | Some status => wf_status status
      | None => true
      end
      &&
      match dict_get "final" items with
      | Some (JBool _) | None => true
      | Some _ => false
      end
  | _ => false
  end.

(** A streamed payload of the shape of the data model: an object whose
    [result], when present, is a result.  Other fields ([jsonrpc],
    [id], ...) are free. *)
Definition well_formed (data : json) : bool :=
  match data with
  | JDict items =>
      match dict_get "result" items with
      | Some result => wf_result result
      | None => true
      end
  | _ => false
  end.

(** The texts of the parts of type "text" of a document, in order. *)
Definition part_texts (part : json) : list json :=
  match field "type" part with
  | Some ty =>
      if eq_str ty "text"
      then match field "text" part with Some t => [t] | None => [] end
      else []
  | None => []
  end.

Definition result_texts (result : json) : list json :=
  match field "status" result with
  | Some status =>
      match field "message" status with
      | Some message =>
          match field "parts" message with
          | Some (JList parts) => flat_map part_texts parts
          | _ => []
          end
      | None => []
      end
  | None => []
  end.

Definition event_texts (event : Event) : list json :=
  match event with
  | Payload data =>
      match field "result" data with
      | Some result => result_texts result
      | None => []
      end
  | NoData | Garbled | Oversized | TooDeep => []
  end.

(** Overwriting [content] with each text in turn. *)
Definition set_texts (texts : list json) (final_response : pydict) : pydict :=
  fold_left (fun fr t => dict_set "content" t fr) texts final_response.

Definition status_of (final_response : pydict) : option json :=
  dict_get "status" final_response.

(** A keep-alive, or a well-formed payload with no [error] field and
    no true [result.final]: an event that ends nothing. *)
Definition quiet (event : Event) : bool :=
  match event with
  | NoData => true
  | Payload data =>
      well_formed data && negb (carries "error" data) && negb (final_true data)
  | Garbled | Oversized | TooDeep => false
  end.

(** A terminal status: "complete" or "error". *)
Definition terminal (fr : pydict) : Prop :=
  status_of fr = Some (JStr "complete") \/ status_of fr = Some (JStr "error").

(** The shape of a reduced outcome: a [status] that is one of the
    three, and a [content]. *)
Definition reduced_shape (v : json) : bool :=
  match field "status" v with
  | Some s =>
      (eq_str s "incomplete" || eq_str s "complete" || eq_str s "error")
      && carries "content" v
  | None => false
  end.

(** [keepalives_inserted evs evs']: [evs'] is [evs] with events
    without data put in at any places. *)
Inductive keepalives_inserted : list Event -> list Event -> Prop :=
| ki_done : keepalives_inserted [] []
| ki_keep (ev : Event) (evs evs' : list Event) :
    keepalives_inserted evs evs' ->
    keepalives_inserted (ev :: evs) (ev :: evs')
| ki_insert (evs evs' : list Event) :
    keepalives_inserted evs evs' ->
    keepalives_inserted evs (NoData :: evs').

(** The page of a turn up to the moment the response is awaited. *)
Definition page_before_response (prompt : string) (sh : Shell) : list UiOp :=
  page sh
  ++ flat_map (fun m => [ChatBlock (role m); Write (content m)]) (messages sh)
  ++ [ChatBlock "user"; Write (JStr prompt)]
  ++ [ChatBlock "assistant"; PlaceholderText "Thinking..."].

(** ** Reading documents: further shapes *)

(** [result.final] is truthy: [true], a number other than zero, a
    non-empty string, array or object. *)
Definition final_truthy (data : json) : bool :=
  match field "result" data with
  | Some result =>
      match field "final" result with
      | Some v => truthy v
      | None => false
      end
  | None => false
  end.

(** A payload whose [result], when present, is an object with a
    well-formed [status]; [final] may hold any value. *)
Definition shaped (data : json) : bool :=
  match data with
  | JDict items =>
      match dict_get "result" items with
      | Some (JDict ritems) =>
          match dict_get "status" ritems with
          | Some status => wf_status status
          | None => true
          end
      | Some _ => false
      | None => true
      end
  | _ => false
  end.

(** What the parts loop raises on a part, if anything. *)
Definition part_error (part : json) : option exn :=
  match part with
  | JDict items =>
      match dict_get "type" items with
      | None => Some (KeyError "type")
      | Some ty =>
          if eq_str ty "text"
          then match dict_get "text" items with
               | None => Some (KeyError "text")
               | Some _ => None
               end
          else None
      end
  | _ => Some TypeError
  end.

(** What [json.loads] raises on the data of an event, if anything. *)
Definition load_error (event : Event) : option exn :=
  match event with
  | NoData | Payload _ => None
  | Garbled => Some JSONDecodeError
  | Oversized => Some ValueError
  | TooDeep => Some RecursionError
  end.

(** The payload is a JSON object. *)
Definition is_object (v : json) : bool :=
  match v with
  | JDict _ => true
  | _ => false
  end.

(** The request each path builds for [requests.post]. *)
Definition request_of (self : A2AClient) (stream : bool)
    (task_id message : string) : Request :=
  if stream
  then {| url := server_url self;
          body := make_payload self "tasks/sendSubscribe" task_id message;
          headers := [("Accept", "text/event-stream");
                      ("Content-Type", "application/json")];
          stream := true |}
  else {| url := server_url self;
          body := make_payload self "tasks/send" task_id message;
          headers := [];
          stream := false |}.

(** Reading a request body back: [params.sessionId], and the parts of
    [params.message]. *)
Definition body_session (body : json) : option json :=
  match field "params" body with
  | Some params => field "sessionId" params
  | None => None
  end.

Definition body_parts (body : json) : option json :=
  match field "params" body with
  | Some params =>
      match field "message" params with
      | Some message => field "parts" message
      | None => None
      end
  | None => None
  end.

(** The keys of a dict, in order. *)
Definition keys (d : pydict) : list string := map fst d.

(** Between events [final_response] holds [status] and [content] and
    the status is "incomplete". *)
Definition between_events (fr : pydict) : Prop :=
  keys fr = ["status"; "content"] /\
  status_of fr = Some (JStr "incomplete").

(** The shell as the response arrives: the user message is in the
    history and the page waits. *)
Definition awaiting (prompt : string) (sh : Shell) : Shell :=
  {| messages := messages sh ++ [{| role := "user"; content := JStr prompt |}];
     client := client sh;
     page := page_before_response prompt sh |}.

(** The prompts of the user messages of a history, in order. *)
Definition user_prompts (ms : list ChatMessage) : list json :=
  map content (filter (fun m => String.eqb (role m) "user") ms).

(** The request goes to the server of client [c] under its session. *)
Definition sent_by (c : A2AClient) (req : Request) : Prop :=
  url req = server_url c /\
  body_session (body req) = Some (JStr (session_id c)).

(** The prompts submitted over some runs, in order. *)
Definition submitted (rs : list Run) : list json :=
  flat_map
    (fun r => match run_prompt r with Some p => [JStr p] | None => [] end) rs.

(** ** Sample documents *)

Definition text_part (s : string) : json :=
  JDict [("type", JStr "text"); ("text", JStr s)].

(** The [result] of a task status update carrying the given texts,
    with or without a [final] flag. *)
Definition status_result (texts : list string) (final : option bool) : json :=
  JDict
    (("status",
      JDict [("message", JDict [("parts", JList (map text_part texts))])])
     :: match final with
        | Some b => [("final", JBool b)]
        | None => []
        end).

Definition status_event (texts : list string) (final : option bool) : json :=
  JDict [("result", status_result texts final)].

Definition boom : json :=
  JDict [("code", JInt 500); ("message", JStr "boom")].

Definition error_event (e : json) : json := JDict [("error", e)].

(** A payload with both fields: a result and an error. *)
Definition mixed_event (texts : list string) (final : bool) (e : json) : json :=
  JDict [("result", status_result texts (Some final)); ("error", e)].

(** A status update built from its message, whatever the message is. *)
Definition message_result (message : json) (final : option json) : json :=
  JDict
    (("status", JDict [("message", message)])
     :: match final with
        | Some v => [("final", v)]
        | None => []
        end).

Definition message_event (message : json) (final : option json) : json :=
  JDict [("result", message_result message final)].

Definition parts_message (parts : list json) : json :=
  JDict [("parts", JList parts)].

Definition local_client : A2AClient :=
  new_A2AClient "http://localhost:10002/" "session-1".

(** A 200 reply whose body is an event stream. *)
Definition stream_reply (evs : list Event) : HttpReply :=
  {| status_code := 200; text := ""; json_doc := Raise JSONDecodeError;
     events := evs |}.

(** A 200 reply whose body is one JSON document. *)
Definition json_reply (doc : json) : HttpReply :=
  {| status_code := 200; text := ""; json_doc := Ok doc; events := [] |}.

(** A JSON-RPC success envelope as the server sends it for [tasks/send]. *)
Definition task_envelope : json :=
  JDict
    [("jsonrpc", JStr "2.0");
     ("id", JStr "task-1");
     ("result",
      JDict
        [("id", JStr "task-1");
         ("status",
          JDict
            [("state", JStr "completed");
             ("message",
              JDict
                [("role", JStr "agent");
                 ("parts", JList [text_part "SELECT 1"])])])])].

(** * Lemmas *)

(** ** Facts about dicts *)

Lemma dict_get_set_same (k : string) (v : json) (d : pydict) :
  dict_get k (dict_set k v d) = Some v.
Proof.
  induction d as [|[k' v'] d IH]; simpl.
  - now rewrite String.eqb_refl.
  - destruct (String.eqb k k') eqn:E; simpl; rewrite E; auto.
Qed.

Lemma dict_get_set_other (k k' : string) (v : json) (d : pydict) :
  k <> k' -> dict_get k (dict_set k' v d) = dict_get k d.
Proof.
  intros Hne. induction d as [|[k0 v0] d IH]; simpl.
  - destruct (String.eqb_spec k k'); congruence.
  - destruct (String.eqb_spec k' k0) as [->|Hk0]; simpl.
    + destruct (String.eqb_spec k k0); congruence.
    + destruct (String.eqb_spec k k0); auto.
Qed.

Lemma dict_has_set (k k' : string) (v : json) (d : pydict) :
  dict_has k (dict_set k' v d) = true <-> k = k' \/ dict_has k d = true.
Proof.
  unfold dict_has. destruct (String.eqb_spec k k') as [->|Hne].
  - rewrite dict_get_set_same. tauto.
  - rewrite dict_get_set_other by exact Hne.
    destruct (dict_get k d); intuition congruence.
Qed.

(** ** Facts about the loop body *)

Lemma status_of_set_content (t : json) (fr : pydict) :
  status_of (dict_set "content" t fr) = status_of fr.
Proof. unfold status_of. now apply dict_get_set_other. Qed.

Lemma status_of_set_texts (ts : list json) (fr : pydict) :
  status_of (set_texts ts fr) = status_of fr.
Proof.
  revert fr. induction ts as [|t ts IH]; intros fr; simpl; auto.
  unfold set_texts in *. simpl. rewrite IH. apply status_of_set_content.
Qed.

Lemma last_cons {A : Type} (ts : list A) (t c : A) :
  last (t :: ts) c = last ts t.
Proof.
  revert t c. induction ts as [|u ts IH]; intros t c; [reflexivity|].
  change (last (t :: u :: ts) c) with (last (u :: ts) c).
  now rewrite !IH.
Qed.

Lemma content_of_set_texts (ts : list json) (fr : pydict) (c : json) :
  dict_get "content" fr = Some c ->
  dict_get "content" (set_texts ts fr) = Some (last ts c).
Proof.
  revert fr c. induction ts as [|t ts IH]; intros fr c Hc; [exact Hc|].
  rewrite last_cons. unfold set_texts in *. cbn [fold_left].
  apply IH, dict_get_set_same.
Qed.

Lemma set_texts_app (ts us : list json) (fr : pydict) :
  set_texts (ts ++ us) fr = set_texts us (set_texts ts fr).
Proof. unfold set_texts. apply fold_left_app. Qed.

Lemma error_of_set_texts (ts : list json) (fr : pydict) :
  dict_get "error" (set_texts ts fr) = dict_get "error" fr.
Proof.
  induction ts as [|t ts IH] using rev_ind; [reflexivity|].
  rewrite set_texts_app. unfold set_texts at 1. cbn [fold_left].
  now rewrite dict_get_set_other by discriminate.
Qed.

Lemma for_parts_wf (parts : list json) (fr : pydict) :
  forallb wf_part parts = true ->
  for_parts parts fr = Ok (set_texts (flat_map part_texts parts) fr).
Proof.
  revert fr. induction parts as [|part parts IH]; intros fr Hwf; simpl in *.
  - reflexivity.
  - apply andb_true_iff in Hwf as [Hp Hps].
    rewrite set_texts_app.
    unfold wf_part, part_texts, carries, field, getitem in *.
    destruct part as [| | | | |xs|items]; try discriminate.
    destruct (dict_get "type" items) as [ty|]; try discriminate. simpl.
    destruct (eq_str ty "text").
    + destruct (dict_get "text" items) as [t|]; try discriminate. simpl.
      now apply IH.
    + simpl. now apply IH.
Qed.

Lemma status_update_wf (result : json) (fr : pydict) :
  wf_result result = true ->
  status_update result fr = Ok (set_texts (result_texts result) fr).
Proof.
  intros Hwf. unfold wf_result in Hwf.
  destruct result as [| | | | |xs|items]; try discriminate.
  apply andb_true_iff in Hwf as [Hst _].
  unfold status_update, result_texts, field, contains, dict_has, getitem.
  destruct (dict_get "status" items) as [status|]; simpl; [|reflexivity].
  unfold wf_status in Hst.
  destruct status as [| | | | |xs|sitems]; try discriminate. simpl.
  unfold dict_has.
  destruct (dict_get "message" sitems) as [message|]; simpl; [|reflexivity].
  unfold wf_message in Hst.
  destruct message as [| | | | |xs|mitems]; try discriminate.
  - reflexivity.
  - destruct (dict_get "parts" mitems) as [ps|] eqn:Hparts; try discriminate.
    destruct ps as [| | | | |parts|]; try discriminate.
    assert (Htruthy : truthy (JDict mitems) = true)
      by (destruct mitems; [discriminate Hparts|reflexivity]).
    cbn [bind]. rewrite Htruthy. cbn [bind getitem iter].
    now apply for_parts_wf.
Qed.

Lemma is_final_wf (data result : json) :
  field "result" data = Some result ->
  wf_result result = true ->
  is_final result = Ok (final_true data).
Proof.
  intros Hr Hwf. unfold final_true. rewrite Hr.
  unfold wf_result in Hwf.
  destruct result as [| | | | |xs|items]; try discriminate.
  apply andb_true_iff in Hwf as [_ Hfin].
  unfold is_final, contains, dict_has, getitem, field.
  destruct (dict_get "final" items) as [f|]; simpl; [|reflexivity].
  destruct f as [| [|] | | | | |]; try discriminate; reflexivity.
Qed.

(** What the loop body does with a well-formed payload. *)
Lemma loop_body_well_formed (data : json) (fr : pydict) :
  well_formed data = true ->
  loop_body (Payload data) fr =
  Ok (let fr1 := set_texts (event_texts (Payload data)) fr in
      if final_true data
      then (Break, dict_set "status" (JStr "complete") fr1)
      else match field "error" data with
           | Some e =>
               (Break, dict_set "error" e (dict_set "status" (JStr "error") fr1))
           | None => (Next, fr1)
           end).
Proof.
  intros Hwf. unfold well_formed in Hwf.
  destruct data as [| | | | |xs|items]; try discriminate.
  unfold loop_body. simpl has_data. simpl json_loads. cbn [negb bind].
  unfold result_block. cbn [contains bind]. unfold dict_has.
  destruct (dict_get "result" items) as [result|] eqn:Hres.
  - cbn [getitem]. rewrite Hres. cbn [bind].
    rewrite (status_update_wf _ _ Hwf). cbn [bind].
    rewrite (is_final_wf (JDict items) result Hres Hwf). cbn [bind].
    cbn [event_texts field]. rewrite Hres.
    destruct (final_true (JDict items)); [reflexivity|].
    unfold error_block. cbn [contains bind getitem]. unfold dict_has.
    destruct (dict_get "error" items); reflexivity.
  - cbn [bind event_texts field]. rewrite Hres.
    unfold final_true. cbn [field]. rewrite Hres.
    unfold error_block. cbn [contains bind getitem]. unfold dict_has.
    destruct (dict_get "error" items); reflexivity.
Qed.

Lemma loop_body_quiet (event : Event) (fr : pydict) :
  quiet event = true ->
  loop_body event fr = Ok (Next, set_texts (event_texts event) fr).
Proof.
  destruct event as [|data| | |]; simpl quiet; intros Hq; try discriminate.
  - reflexivity.
  - apply andb_true_iff in Hq as [Hq Hfin].
    apply andb_true_iff in Hq as [Hwf Herr].
    rewrite (loop_body_well_formed _ _ Hwf).
    apply negb_true_iff in Hfin. apply negb_true_iff in Herr.
    rewrite Hfin. unfold carries in Herr.
    destruct (field "error" data); [discriminate|reflexivity].
Qed.

(** An event that carries an error and no result. *)
Lemma loop_body_error_event (data e : json) (fr : pydict) :
  well_formed data = true ->
  field "error" data = Some e ->
  carries "result" data = false ->
  loop_body (Payload data) fr =
  Ok (Break, dict_set "error" e (dict_set "status" (JStr "error") fr)).
Proof.
  intros Hwf He Hres. rewrite (loop_body_well_formed _ _ Hwf). rewrite He.
  unfold carries in Hres. unfold final_true, event_texts.
  destruct (field "result" data); [discriminate|reflexivity].
Qed.

(** *** What every pass preserves

    The loop body writes to [final_response] in three ways only:
    [content] in the parts loop, [status] and [error] as it breaks.
    A property that survives a write to [content] therefore survives
    every pass that falls through, on any event at all. *)

Ltac bind_step H :=
  match type of H with
  | context [bind ?m _] =>
      let E := fresh "E" in
      destruct m eqn:E; cbn [bind] in H; [|discriminate H]
  end.

Ltac bool_step H :=
  match type of H with
  | context [if ?b then _ else _] =>
      let E := fresh "E" in destruct b eqn:E
  end.

Section Preserved.

Variable P : pydict -> Prop.
Hypothesis P_content : forall t fr, P fr -> P (dict_set "content" t fr).

Lemma for_parts_preserves (parts : list json) (fr fr' : pydict) :
  P fr -> for_parts parts fr = Ok fr' -> P fr'.
Proof.
  revert fr. induction parts as [|part parts IH]; intros fr HP H; simpl in H.
  - now inversion H; subst.
  - bind_step H. bool_step H.
    + bind_step H. eapply IH; [|exact H]. now apply P_content.
    + eapply IH; eassumption.
Qed.

Lemma status_update_preserves (result : json) (fr fr' : pydict) :
  P fr -> status_update result fr = Ok fr' -> P fr'.
Proof.
  unfold status_update. intros HP H.
  bind_step H. bool_step H; [|now inversion H; subst].
  bind_step H. bind_step H.
  bind_step H. bool_step H; [|now inversion H; subst].
  bind_step H. bind_step H. bind_step H.
  eapply for_parts_preserves; eassumption.
Qed.

Lemma result_block_cases (data : json) (fr fr' : pydict) (ctl : Ctl) :
  P fr ->
  result_block data fr = Ok (ctl, fr') ->
  match ctl with
  | Next => P fr'
  | Break =>
      exists fr1, P fr1 /\ fr' = dict_set "status" (JStr "complete") fr1
  end.
Proof.
  intros HP H. unfold result_block in H.
  bind_step H. bool_step H; [|now inversion H; subst].
  bind_step H. bind_step H.
  match goal with
  | Hu : status_update _ _ = Ok ?f |- _ =>
      pose proof (status_update_preserves _ _ _ HP Hu) as HP1
  end.
  bind_step H. bool_step H; inversion H; subst.
  - eexists. split; [exact HP1|reflexivity].
  - exact HP1.
Qed.

Lemma error_block_cases (data : json) (fr fr' : pydict) (ctl : Ctl) :
  error_block data fr = Ok (ctl, fr') ->
  match ctl with
  | Next => fr' = fr
  | Break =>
      exists e, fr' = dict_set "error" e (dict_set "status" (JStr "error") fr)
  end.
Proof.
  intros H. unfold error_block in H.
  bind_step H. bool_step H; [|now inversion H; subst].
  bind_step H. inversion H; subst. now eexists.
Qed.

(** The two ways out of the body. *)
Lemma loop_body_cases (event : Event) (fr fr' : pydict) (ctl : Ctl) :
  P fr ->
  loop_body event fr = Ok (ctl, fr') ->
  match ctl with
  | Next => P fr'
  | Break =>
      exists fr1,
        P fr1 /\
        (fr' = dict_set "status" (JStr "complete") fr1 \/
         exists e,
           fr' = dict_set "error" e (dict_set "status" (JStr "error") fr1))
  end.
Proof.
  intros HP. unfold loop_body. destruct (has_data event); cbn [negb].
  2:{ intros H. now inversion H; subst. }
  destruct (json_loads event) as [data|]; cbn [bind]; [|discriminate].
  destruct (result_block data fr) as [[c fr1]|] eqn:Hres; cbn [bind];
    [|discriminate].
  apply (result_block_cases _ _ _ _ HP) in Hres.
  destruct c.
  - intros H. apply error_block_cases in H. destruct ctl.
    + now subst.
    + destruct H as [e ->]. exists fr1. split; [exact Hres|].
      right. now exists e.
  - intros H. inversion H; subst.
    destruct Hres as (fr0 & HP0 & ->). exists fr0. split; [exact HP0|now left].
Qed.

End Preserved.

(** On any event at all, a pass that falls through leaves [status] as
    it was, and a [break] has just set it to "complete" or "error". *)
Lemma loop_body_status (event : Event) (fr fr' : pydict) (ctl : Ctl) :
  loop_body event fr = Ok (ctl, fr') ->
  match ctl with
  | Next => status_of fr' = status_of fr
  | Break => terminal fr'
  end.
Proof.
  intros H.
  apply (loop_body_cases (fun f => status_of f = status_of fr)) in H.
  - destruct ctl; [exact H|].
    destruct H as (fr1 & _ & [-> | [e ->]]); unfold terminal, status_of.
    + left. apply dict_get_set_same.
    + right. rewrite dict_get_set_other by discriminate.
      apply dict_get_set_same.
  - intros t f Hf. now rewrite status_of_set_content.
  - reflexivity.
Qed.

(** A pass never drops a key of [final_response]. *)
Lemma loop_body_keeps_key (k : string) (event : Event) (fr fr' : pydict)
    (ctl : Ctl) :
  dict_has k fr = true ->
  loop_body event fr = Ok (ctl, fr') ->
  dict_has k fr' = true.
Proof.
  intros Hk H.
  apply (loop_body_cases (fun f => dict_has k f = true)) in H.
  - destruct ctl; [exact H|].
    destruct H as (fr1 & H1 & [-> | [e ->]]);
      repeat (apply dict_has_set; right); exact H1.
  - intros t f Hf. apply dict_has_set. now right.
  - exact Hk.
Qed.

(** ** Facts about the loop *)

(** A stream of quiet events is read to its end. *)
Lemma for_events_quiet (evs : list Event) (fr : pydict) (n : Net) :
  forallb quiet evs = true ->
  for_events evs fr n =
  (Ok (set_texts (flat_map event_texts evs) fr),
   {| sent := sent n; unread := []; yielded := yielded n ++ evs |}).
Proof.
  revert fr n. induction evs as [|ev evs IH]; intros fr n Hq; simpl in Hq.
  - simpl. unfold end_of_stream. now rewrite app_nil_r.
  - apply andb_true_iff in Hq as [Hev Hevs].
    cbn [for_events]. rewrite (loop_body_quiet _ _ Hev).
    rewrite (IH _ _ Hevs). cbn [flat_map]. rewrite set_texts_app.
    unfold yield. cbn [sent yielded]. now rewrite <- app_assoc.
Qed.

(** Quiet events, then an event on which the body breaks: the loop
    stops there and the rest stays unread. *)
Lemma for_events_break (pre post : list Event) (ev : Event)
    (fr fr' : pydict) (n : Net) :
  forallb quiet pre = true ->
  loop_body ev (set_texts (flat_map event_texts pre) fr) = Ok (Break, fr') ->
  for_events (pre ++ ev :: post) fr n =
  (Ok fr',
   {| sent := sent n; unread := post;
      yielded := yielded n ++ pre ++ [ev] |}).
Proof.
  revert fr n. induction pre as [|e pre IH]; intros fr n Hq Hbody;
    simpl in Hq.
  - cbn [app for_events]. cbn [flat_map] in Hbody.
    unfold set_texts in Hbody. cbn [fold_left] in Hbody. rewrite Hbody.
    reflexivity.
  - apply andb_true_iff in Hq as [He Hpre].
    cbn [app for_events]. rewrite (loop_body_quiet _ _ He).
    cbn [flat_map] in Hbody. rewrite set_texts_app in Hbody.
    rewrite (IH _ _ Hpre Hbody).
    unfold yield. cbn [sent yielded]. now rewrite <- app_assoc.
Qed.

(** How the loop can end, on any events: at the end of the stream
    with [status] untouched, or at some event by [break] or by an
    exception, with the events after it unread. *)
Lemma for_events_exit (evs : list Event) (fr : pydict) (n : Net)
    (r : res pydict) (n' : Net) :
  for_events evs fr n = (r, n') ->
  sent n' = sent n /\
  ((exists fr', r = Ok fr' /\ status_of fr' = status_of fr /\
                unread n' = [] /\
                yielded n' = yielded n ++ evs)
   \/
   (exists pre ev post,
       evs = pre ++ ev :: post /\ unread n' = post /\
       yielded n' = yielded n ++ pre ++ [ev] /\
       match r with
       | Ok fr' => terminal fr'
       | Raise _ => True
       end)).
Proof.
  revert fr n. induction evs as [|ev evs IH]; intros fr n H.
  - cbn [for_events] in H. inversion H; subst. split; [reflexivity|].
    left. exists fr. cbn. now rewrite app_nil_r.
  - cbn [for_events] in H.
    destruct (loop_body ev fr) as [[[|] fr1]|e] eqn:Hbody.
    + apply loop_body_status in Hbody.
      apply IH in H as [Hsent [H|H]].
      * split; [exact Hsent|]. left.
        destruct H as (fr' & -> & Hst & Hu & Hy).
        exists fr'. repeat split; try assumption.
        -- congruence.
        -- rewrite Hy. cbn. now rewrite <- app_assoc.
      * split; [exact Hsent|]. right.
        destruct H as (pre & ev' & post & -> & Hu & Hy & Hr).
        exists (ev :: pre), ev', post. repeat split; try assumption.
        rewrite Hy. cbn. now rewrite <- app_assoc.
    + apply loop_body_status in Hbody. inversion H; subst.
      split; [reflexivity|]. right. exists [], ev, evs.
      repeat split. exact Hbody.
    + inversion H; subst. split; [reflexivity|]. right.
      exists [], ev, evs. repeat split.
Qed.

(** The loop never looks at what the net holds as unread: it is told
    the events. *)
Lemma for_events_net (evs : list Event) (fr : pydict) (n1 n2 : Net) :
  sent n1 = sent n2 -> yielded n1 = yielded n2 ->
  for_events evs fr n1 = for_events evs fr n2.
Proof.
  intros Hs Hy. destruct evs as [|ev evs]; cbn [for_events].
  - unfold end_of_stream. now rewrite Hs, Hy.
  - unfold yield. now rewrite Hs, Hy.
Qed.

(** Once the loop has stopped at a terminal status, whatever follows
    in the stream is not read. *)
Lemma for_events_stops (pre post : list Event) (fr r : pydict) (n n' : Net) :
  for_events pre fr n = (Ok r, n') ->
  status_of r <> status_of fr ->
  for_events (pre ++ post) fr n =
  (Ok r,
   {| sent := sent n'; unread := unread n' ++ post;
      yielded := yielded n' |}).
Proof.
  revert fr n. induction pre as [|ev pre IH]; intros fr n H Hne.
  - cbn in H. inversion H; subst. congruence.
  - cbn [app for_events] in *.
    destruct (loop_body ev fr) as [[[|] fr1]|e] eqn:Hbody.
    + apply loop_body_status in Hbody.
      rewrite (for_events_net _ _ (yield ev (pre ++ post) n) (yield ev pre n))
        by reflexivity.
      apply IH; [exact H|congruence].
    + inversion H; subst. reflexivity.
    + discriminate.
Qed.

Lemma for_events_keeps_key (k : string) (evs : list Event) (fr r : pydict)
    (n n' : Net) :
  dict_has k fr = true ->
  for_events evs fr n = (Ok r, n') ->
  dict_has k r = true.
Proof.
  revert fr n. induction evs as [|ev evs IH]; intros fr n Hk H;
    cbn [for_events] in H.
  - now inversion H; subst.
  - destruct (loop_body ev fr) as [[[|] fr1]|e] eqn:Hbody; try discriminate.
    + eapply IH; [|exact H]. eapply loop_body_keeps_key; eassumption.
    + inversion H; subst. eapply loop_body_keeps_key; eassumption.
Qed.

(** Whatever the events, what the streaming path returns on a 200
    response has the reduced shape. *)
Lemma streaming_outcome_is_reduced (self : A2AClient)
    (task_id message : string) (reply : HttpReply) (n : Net) (v : json) :
  status_code reply = 200%Z ->
  fst (_send_streaming_request self task_id message reply n) = Ok v ->
  reduced_shape v = true.
Proof.
  intros H200. unfold _send_streaming_request. rewrite H200.
  change (negb (200 =? 200)%Z) with false. cbv iota.
  match goal with
  | |- context [for_events ?evs ?fr ?m] =>
      destruct (for_events evs fr m) as [r n'] eqn:Hloop
  end.
  cbn [fst]. destruct r as [fr'|e]; cbn [rmap bind]; [|discriminate].
  intros Hv. inversion Hv; subst v. clear Hv.
  assert (Hc : dict_has "content" fr' = true)
    by (eapply for_events_keeps_key; [|exact Hloop]; reflexivity).
  unfold reduced_shape, carries. cbn [field].
  unfold dict_has in Hc. destruct (dict_get "content" fr'); [|discriminate].
  apply for_events_exit in Hloop as [_ [H|H]].
  - destruct H as (fr0 & Hr & Hst & _). inversion Hr; subst fr0.
    unfold status_of in Hst. rewrite Hst. reflexivity.
  - destruct H as (_ & _ & _ & _ & _ & _ & [Hs|Hs]);
      unfold status_of in Hs; rewrite Hs; reflexivity.
Qed.

(** What one well-formed event leaves in [content]: its last text
    part, or what was there when it has none. *)
Lemma content_after_event (data : json) (fr : pydict) (c : json) :
  well_formed data = true ->
  dict_get "content" fr = Some c ->
  exists ctl fr',
    loop_body (Payload data) fr = Ok (ctl, fr') /\
    dict_get "content" fr' = Some (last (event_texts (Payload data)) c).
Proof.
  intros Hwf Hc. rewrite (loop_body_well_formed _ _ Hwf). cbv zeta.
  pose proof (content_of_set_texts (event_texts (Payload data)) fr c Hc) as Ht.
  destruct (final_true data).
  - eexists _, _. split; [reflexivity|].
    now rewrite dict_get_set_other by discriminate.
  - destruct (field "error" data) as [e|].
    + eexists _, _. split; [reflexivity|].
      now rewrite !dict_get_set_other by discriminate.
    + eexists _, _. split; [reflexivity|exact Ht].
Qed.

(** * The claims *)

(** ** C1: an event with an [error] field *)

(** C1, as stated, fails: when an event carries both [result] and
    [error], the result is processed first.  With a true
    [result.final] the outcome is "complete", takes the event's text
    and carries no error; without it the status is "error" but
    [content] has already been overwritten by the event's text. *)
Lemma result_is_processed_before_error :
  carries "error" (mixed_event ["late"] true boom) = true /\
  loop_body (Payload (mixed_event ["late"] true boom)) initial_response =
    Ok (Break, [("status", JStr "complete"); ("content", JStr "late")]) /\
  loop_body (Payload (mixed_event ["late"] false boom)) initial_response =
    Ok (Break,
        [("status", JStr "error"); ("content", JStr "late"); ("error", boom)]).
Proof. repeat split. Qed.

(** C1 (amended): for a well-formed event with an [error] field,
    (a) without a [result] field the status becomes "error", the
    payload is attached, nothing else changes and the loop breaks;
    (b) with a [result] field the result is processed first: its text
    parts overwrite [content]; if [result.final] is true the status
    becomes "complete" and the error is not attached, otherwise the
    status becomes "error" and the payload is attached. *)
Theorem error_event_reduction (data e : json) (fr : pydict) :
  well_formed data = true ->
  field "error" data = Some e ->
  (carries "result" data = false ->
   loop_body (Payload data) fr =
   Ok (Break, dict_set "error" e (dict_set "status" (JStr "error") fr)))
  /\
  (final_true data = true ->
   loop_body (Payload data) fr =
   Ok (Break,
       dict_set "status" (JStr "complete")
         (set_texts (event_texts (Payload data)) fr)))
  /\
  (final_true data = false ->
   loop_body (Payload data) fr =
   Ok (Break,
       dict_set "error" e
         (dict_set "status" (JStr "error")
            (set_texts (event_texts (Payload data)) fr)))).
Proof.
  intros Hwf He. rewrite (loop_body_well_formed _ _ Hwf). rewrite He.
  repeat split.
  - intros Hres. unfold carries in Hres.
    unfold final_true, event_texts.
    destruct (field "result" data); [discriminate|reflexivity].
  - intros ->. reflexivity.
  - intros ->. reflexivity.
Qed.

Lemma error_event_reduction_witness :
  loop_body (Payload (error_event boom)) initial_response =
  Ok (Break,
      [("status", JStr "error"); ("content", JStr ""); ("error", boom)]).
Proof.
  exact (proj1 (error_event_reduction (error_event boom) boom initial_response
                  eq_refl eq_refl) eq_refl).
Defined.

(** ** C2: the non-streaming path *)

(** C2, as stated, fails: on a 200 response the non-streaming path
    hands back the JSON-RPC envelope itself, which has no [status] and
    no [content] of a reduced outcome. *)
Lemma send_request_returns_the_envelope :
  fst (_send_request local_client "task-1" "count the customers"
         (json_reply task_envelope) fresh_net) = Ok task_envelope /\
  reduced_shape task_envelope = false.
Proof. split; reflexivity. Qed.

(** C2 (amended): on the non-streaming path with HTTP status 200 the
    client returns what [response.json()] gives, the response document
    unchanged, after a single post. *)
Theorem send_request_returns_json (self : A2AClient) (task_id message : string)
    (reply : HttpReply) (n : Net) :
  status_code reply = 200%Z ->
  fst (_send_request self task_id message reply n) = json_doc reply /\
  length (sent (snd (_send_request self task_id message reply n))) =
    S (length (sent n)).
Proof.
  intros H200. unfold _send_request. rewrite H200.
  change (negb (200 =? 200)%Z) with false. cbn [fst snd].
  split; [reflexivity|].
  unfold requests_post. cbn [sent]. rewrite length_app. cbn. lia.
Qed.

Lemma send_request_returns_json_witness :
  fst (_send_request local_client "task-1" "count the customers"
         (json_reply task_envelope) fresh_net) = json_doc (json_reply task_envelope).
Proof.
  exact (proj1 (send_request_returns_json local_client "task-1"
                  "count the customers" (json_reply task_envelope) fresh_net
                  eq_refl)).
Defined.

(** ** C4: a stream that ends with a final event *)

(** The end-to-end scenario: a partial text, then the final one. *)
Example partial_then_final :
  fst (_send_streaming_request local_client "task-1" "count the customers"
         (stream_reply
            [Payload (status_event ["partial"] None);
             Payload (status_event ["SELECT 1"] (Some true))]) fresh_net)
  = Ok (JDict [("status", JStr "complete"); ("content", JStr "SELECT 1")]).
Proof. reflexivity. Qed.

(** C4, as stated, fails: the loop stops at the first event with a
    true [result.final].  Here the last event is final and no event
    carries an error, yet [content] is the text of the first event,
    not the last text of the whole sequence. *)
Lemma early_final_hides_later_text :
  final_true (status_event ["b"] (Some true)) = true /\
  forallb
    (fun d => negb (carries "error" d))
    [status_event ["a"] (Some true); status_event ["b"] (Some true)] = true /\
  fst (_send_streaming_request local_client "task-1" "count the customers"
         (stream_reply
            [Payload (status_event ["a"] (Some true));
             Payload (status_event ["b"] (Some true))]) fresh_net)
  = Ok (JDict [("status", JStr "complete"); ("content", JStr "a")]) /\
  last
    (flat_map event_texts
       [Payload (status_event ["a"] (Some true));
        Payload (status_event ["b"] (Some true))]) (JStr "")
  = JStr "b".
Proof. repeat split. Qed.

(** C4 (amended): for every sequence of well-formed events whose last
    event has a true [result.final], in which no earlier event has one
    and no event carries an [error] field, the reduction ends with
    status "complete" and [content] equal to the last text part of the
    whole sequence (the initial empty string when there is none); and
    after any single well-formed event [content] holds the last text
    part of that event, when it has one. *)
Theorem final_event_completes (self : A2AClient) (task_id message : string)
    (reply : HttpReply) (n : Net) (pre : list Event) (data : json) :
  status_code reply = 200%Z ->
  events reply = pre ++ [Payload data] ->
  forallb quiet pre = true ->
  well_formed data = true ->
  carries "error" data = false ->
  final_true data = true ->
  (exists fr,
      fst (_send_streaming_request self task_id message reply n)
      = Ok (JDict fr) /\
      status_of fr = Some (JStr "complete") /\
      dict_get "content" fr =
        Some (last (flat_map event_texts (events reply)) (JStr "")))
  /\
  (forall d fr c,
      well_formed d = true ->
      dict_get "content" fr = Some c ->
      exists ctl fr',
        loop_body (Payload d) fr = Ok (ctl, fr') /\
        dict_get "content" fr' = Some (last (event_texts (Payload d)) c)).
Proof.
  intros H200 Hevs Hpre Hwf Herr Hfin.
  split; [|intros d fr c; apply content_after_event].
  unfold _send_streaming_request. rewrite H200.
  change (negb (200 =? 200)%Z) with false. cbv iota.
  cbn [requests_post unread stream]. rewrite Hevs.
  erewrite for_events_break; [| exact Hpre |].
  2:{ rewrite (loop_body_well_formed _ _ Hwf). cbv zeta. rewrite Hfin.
      reflexivity. }
  cbn [fst rmap bind]. eexists. split; [reflexivity|]. split.
  - unfold status_of. apply dict_get_set_same.
  - rewrite dict_get_set_other by discriminate.
    rewrite <- set_texts_app.
    replace (flat_map event_texts pre ++ event_texts (Payload data))
      with (flat_map event_texts (pre ++ [Payload data])).
    + now apply content_of_set_texts.
    + rewrite flat_map_app. cbn [flat_map]. now rewrite app_nil_r.
Qed.

Lemma final_event_completes_witness :
  exists fr,
    fst (_send_streaming_request local_client "task-1" "count the customers"
           (stream_reply
              [Payload (status_event ["partial"] None); NoData;
               Payload (status_event ["SELECT 0"; "SELECT 1"] (Some true))])
           fresh_net)
    = Ok (JDict fr) /\
    status_of fr = Some (JStr "complete") /\
    dict_get "content" fr = Some (JStr "SELECT 1").
Proof.
  exact (proj1 (final_event_completes local_client "task-1"
                  "count the customers"
                  (stream_reply
                     [Payload (status_event ["partial"] None); NoData;
                      Payload
                        (status_event ["SELECT 0"; "SELECT 1"] (Some true))])
                  fresh_net
                  [Payload (status_event ["partial"] None); NoData]
                  (status_event ["SELECT 0"; "SELECT 1"] (Some true))
                  eq_refl eq_refl eq_refl eq_refl eq_refl eq_refl)).
Defined.

(** ** C5: an error event ends the reduction *)

(** C5, as stated, fails: an event with an [error] field that also
    carries a result with a true [result.final] ends the reduction
    with status "complete" and no error attached.  Here it is the
    first event of the stream, so no terminal event comes before it. *)
Lemma error_event_with_final_completes :
  carries "error" (mixed_event ["late"] true boom) = true /\
  fst (_send_streaming_request local_client "task-1" "count the customers"
         (stream_reply
            [Payload (mixed_event ["late"] true boom);
             Payload (error_event boom)]) fresh_net)
  = Ok (JDict [("status", JStr "complete"); ("content", JStr "late")]) /\
  yielded (snd (_send_streaming_request local_client "task-1"
                  "count the customers"
                  (stream_reply
                     [Payload (mixed_event ["late"] true boom);
                      Payload (error_event boom)]) fresh_net))
  = [Payload (mixed_event ["late"] true boom)].
Proof. repeat split. Qed.

(** C5 (amended): when the well-formed event at position [k] carries
    an [error] field and the events before it end nothing, the outcome
    is terminal at [k]: the events up to [k] are the only ones handed
    to the loop and the events after [k] stay unread.  Its status is
    "error" with the payload attached, unless the event also carries a
    result whose [result.final] is true: then the status is "complete"
    and no error is attached.  [content] is the last text part
    received up to [k], the initial empty string when there is none. *)
Theorem error_event_is_terminal (self : A2AClient) (task_id message : string)
    (reply : HttpReply) (n : Net) (pre post : list Event) (data e : json) :
  status_code reply = 200%Z ->
  events reply = pre ++ Payload data :: post ->
  forallb quiet pre = true ->
  well_formed data = true ->
  field "error" data = Some e ->
  exists fr,
    fst (_send_streaming_request self task_id message reply n)
    = Ok (JDict fr) /\
    (if final_true data
     then status_of fr = Some (JStr "complete") /\ dict_get "error" fr = None
     else status_of fr = Some (JStr "error") /\ dict_get "error" fr = Some e)
    /\
    dict_get "content" fr
    = Some (last (flat_map event_texts (pre ++ [Payload data])) (JStr "")) /\
    yielded (snd (_send_streaming_request self task_id message reply n))
    = pre ++ [Payload data] /\
    unread (snd (_send_streaming_request self task_id message reply n)) = post.
Proof.
  intros H200 Hevs Hpre Hwf He.
  unfold _send_streaming_request. rewrite H200.
  change (negb (200 =? 200)%Z) with false. cbv iota.
  cbn [requests_post unread stream]. rewrite Hevs.
  erewrite for_events_break; [| exact Hpre |].
  2:{ rewrite (loop_body_well_formed _ _ Hwf). cbv zeta. rewrite He.
      instantiate
        (1 := if final_true data
              then dict_set "status" (JStr "complete")
                     (set_texts (event_texts (Payload data))
                        (set_texts (flat_map event_texts pre)
                           initial_response))
              else dict_set "error" e
                     (dict_set "status" (JStr "error")
                        (set_texts (event_texts (Payload data))
                           (set_texts (flat_map event_texts pre)
                              initial_response)))).
      now destruct (final_true data). }
  cbn [fst snd rmap bind yielded unread app].
  eexists. split; [reflexivity|].
  assert (Hcontent :
    dict_get "content"
      (set_texts (event_texts (Payload data))
         (set_texts (flat_map event_texts pre) initial_response))
    = Some (last (flat_map event_texts (pre ++ [Payload data])) (JStr ""))).
  { rewrite <- set_texts_app, flat_map_app. cbn [flat_map].
    rewrite app_nil_r. now apply content_of_set_texts. }
  destruct (final_true data); repeat split.
  - unfold status_of. apply dict_get_set_same.
  - rewrite dict_get_set_other by discriminate.
    now rewrite !error_of_set_texts.
  - now rewrite dict_get_set_other by discriminate.
  - unfold status_of. rewrite dict_get_set_other by discriminate.
    apply dict_get_set_same.
  - apply dict_get_set_same.
  - now rewrite !dict_get_set_other by discriminate.
Qed.

Lemma error_event_is_terminal_witness :
  exists fr,
    fst (_send_streaming_request local_client "task-1" "count the customers"
           (stream_reply [Payload (error_event boom)]) fresh_net)
    = Ok (JDict fr) /\
    (status_of fr = Some (JStr "error") /\ dict_get "error" fr = Some boom) /\
    dict_get "content" fr = Some (JStr "") /\
    yielded (snd (_send_streaming_request local_client "task-1"
                    "count the customers"
                    (stream_reply [Payload (error_event boom)]) fresh_net))
    = [Payload (error_event boom)] /\
    unread (snd (_send_streaming_request local_client "task-1"
                   "count the customers"
                   (stream_reply [Payload (error_event boom)]) fresh_net))
    = [].
Proof.
  exact (error_event_is_terminal local_client "task-1" "count the customers"
           (stream_reply [Payload (error_event boom)]) fresh_net
           [] [] (error_event boom) boom
           eq_refl eq_refl eq_refl eq_refl eq_refl).
Defined.

(** ** C6: a stream that ends without a terminal event *)

(** C6: when no event of a well-formed stream has a true
    [result.final] or an [error] field, the call returns (it does not
    raise) an outcome of status "incomplete", whose [content] is the
    last text part seen. *)
Theorem quiet_stream_is_incomplete (self : A2AClient) (task_id message : string)
    (reply : HttpReply) (n : Net) :
  status_code reply = 200%Z ->
  forallb quiet (events reply) = true ->
  exists fr,
    fst (_send_streaming_request self task_id message reply n)
    = Ok (JDict fr) /\
    status_of fr = Some (JStr "incomplete") /\
    dict_get "content" fr =
      Some (last (flat_map event_texts (events reply)) (JStr "")).
Proof.
  intros H200 Hq. unfold _send_streaming_request. rewrite H200.
  change (negb (200 =? 200)%Z) with false. cbv iota.
  cbn [requests_post unread stream].
  rewrite (for_events_quiet _ _ _ Hq). cbn [fst rmap bind].
  eexists. split; [reflexivity|]. split.
  - now rewrite status_of_set_texts.
  - now apply content_of_set_texts.
Qed.

Lemma quiet_stream_is_incomplete_witness :
  exists fr,
    fst (_send_streaming_request local_client "task-1" "count the customers"
           (stream_reply
              [Payload (status_event ["partial"] None); NoData;
               Payload (status_event ["SELECT"] (Some false))]) fresh_net)
    = Ok (JDict fr) /\
    status_of fr = Some (JStr "incomplete") /\
    dict_get "content" fr = Some (JStr "SELECT").
Proof.
  exact (quiet_stream_is_incomplete local_client "task-1"
           "count the customers"
           (stream_reply
              [Payload (status_event ["partial"] None); NoData;
               Payload (status_event ["SELECT"] (Some false))]) fresh_net
           eq_refl eq_refl).
Defined.

(** ** C7: keep-alive events *)

(** C7: events without data change nothing.  Whatever the events (well
    formed or not) and wherever the empty events are put, the loop
    ends the same way: the same outcome, or the same exception. *)
Theorem keepalives_are_noops (evs evs' : list Event) (fr : pydict)
    (n n' : Net) :
  keepalives_inserted evs evs' ->
  fst (for_events evs' fr n') = fst (for_events evs fr n).
Proof.
  intros Hins. revert fr n n'.
  induction Hins as [|ev evs evs' Hins IH|evs evs' Hins IH]; intros fr n n'.
  - reflexivity.
  - cbn [for_events].
    destruct (loop_body ev fr) as [[[|] fr1]|e]; try reflexivity.
    apply IH.
  - cbn [for_events]. cbn [loop_body has_data negb]. apply IH.
Qed.

Lemma keepalives_are_noops_witness :
  fst (for_events
         [NoData; Payload (status_event ["partial"] None); NoData; NoData;
          Payload (status_event ["SELECT 1"] (Some true)); NoData]
         initial_response fresh_net)
  = fst (for_events
           [Payload (status_event ["partial"] None);
            Payload (status_event ["SELECT 1"] (Some true))]
           initial_response fresh_net).
Proof.
  apply keepalives_are_noops.
  apply ki_insert, ki_keep, ki_insert, ki_insert, ki_keep, ki_insert, ki_done.
Defined.

(** ** C8: a failed HTTP exchange *)

(** C8: when the status of the response is not 200, the streaming
    path returns an outcome with an [error] field made of the status
    and the body text; one request has gone out and no event was
    handed to the loop. *)
Theorem http_failure_is_returned (self : A2AClient) (task_id message : string)
    (reply : HttpReply) (n : Net) :
  status_code reply <> 200%Z ->
  fst (_send_streaming_request self task_id message reply n)
  = Ok (http_error reply) /\
  field "error" (http_error reply)
  = Some (JStr ("Error: " ++ str_of_int (status_code reply) ++ " - "
                ++ text reply)) /\
  length (sent (snd (_send_streaming_request self task_id message reply n)))
  = S (length (sent n)) /\
  yielded (snd (_send_streaming_request self task_id message reply n)) = [].
Proof.
  intros Hne. unfold _send_streaming_request.
  destruct (Z.eqb_spec (status_code reply) 200) as [H|_]; [contradiction|].
  cbn [negb fst snd read_text requests_post sent yielded].
  repeat split. rewrite length_app. cbn. lia.
Qed.

Lemma http_failure_is_returned_witness :
  fst (_send_streaming_request local_client "task-1" "count the customers"
         {| status_code := 503; text := "Service Unavailable";
            json_doc := Raise JSONDecodeError;
            events := [Payload (status_event ["SELECT 1"] (Some true))] |}
         fresh_net)
  = Ok (JDict [("error", JStr "Error: 503 - Service Unavailable")]).
Proof.
  apply (http_failure_is_returned local_client "task-1" "count the customers"
           {| status_code := 503; text := "Service Unavailable";
              json_doc := Raise JSONDecodeError;
              events := [Payload (status_event ["SELECT 1"] (Some true))] |}
           fresh_net).
  discriminate.
Defined.

(** ** C9: the status only moves forward *)

(** C9: the status starts at "incomplete"; whatever the events, an
    outcome the loop returns has status "incomplete", "complete" or
    "error"; and once the loop has returned a terminal status on a
    stream, it returns the same outcome on every continuation of that
    stream, with no further event handed to it. *)
Theorem status_only_moves_forward :
  status_of initial_response = Some (JStr "incomplete") /\
  (forall evs n r n',
      for_events evs initial_response n = (Ok r, n') ->
      status_of r = Some (JStr "incomplete") \/ terminal r) /\
  (forall ev fr ctl fr',
      loop_body ev fr = Ok (ctl, fr') ->
      match ctl with
      | Next => status_of fr' = status_of fr
      | Break => terminal fr'
      end) /\
  (forall pre post n r n',
      for_events pre initial_response n = (Ok r, n') ->
      terminal r ->
      fst (for_events (pre ++ post) initial_response n) = Ok r /\
      yielded (snd (for_events (pre ++ post) initial_response n))
      = yielded n').
Proof.
  split; [reflexivity|]. split; [|split].
  - intros evs n r n' H. apply for_events_exit in H as [_ [H|H]].
    + destruct H as (fr' & Hr & Hst & _). inversion Hr; subst. now left.
    + destruct H as (_ & _ & _ & _ & _ & _ & Hr). now right.
  - intros ev fr ctl fr'. apply loop_body_status.
  - intros pre post n r n' H Hterm.
    rewrite (for_events_stops pre post _ r n n' H).
    + split; reflexivity.
    + destruct Hterm as [Hs|Hs]; rewrite Hs; discriminate.
Qed.

Lemma status_only_moves_forward_witness :
  fst (for_events
         ([Payload (status_event ["partial"] None);
           Payload (error_event boom)]
          ++ [Payload (status_event ["SELECT 1"] (Some true))])
         initial_response fresh_net)
  = Ok [("status", JStr "error"); ("content", JStr "partial");
        ("error", boom)]
  /\
  yielded
    (snd (for_events
            ([Payload (status_event ["partial"] None);
              Payload (error_event boom)]
             ++ [Payload (status_event ["SELECT 1"] (Some true))])
            initial_response fresh_net))
  = [Payload (status_event ["partial"] None); Payload (error_event boom)].
Proof.
  apply (proj2 (proj2 (proj2 status_only_moves_forward))
           [Payload (status_event ["partial"] None); Payload (error_event boom)]
           [Payload (status_event ["SELECT 1"] (Some true))]
           fresh_net
           [("status", JStr "error"); ("content", JStr "partial");
            ("error", boom)]
           {| sent := []; unread := [];
              yielded := [Payload (status_event ["partial"] None);
                          Payload (error_event boom)] |}).
  - reflexivity.
  - right. reflexivity.
Defined.

(** ** C10: what the shell does with an outcome *)

(** C10: the shell looks at the [error] field only, never at
    [status].  When the outcome has an [error] field, the error is
    shown and the history gets the user message alone; when it has
    none, whatever its status, its [content] is written and appended
    to the history as an assistant message. *)
Theorem shell_shows_content_unless_error (prompt task_id : string)
    (reply : HttpReply) (sh : Shell) (n : Net) (items : pydict) :
  fst (send_message (client sh) task_id prompt true reply n)
  = Ok (JDict items) ->
  let sh' := fst (main prompt task_id reply sh n) in
  match dict_get "error" items with
  | Some e =>
      messages sh'
      = messages sh ++ [{| role := "user"; content := JStr prompt |}] /\
      page sh'
      = page_before_response prompt sh ++ [PlaceholderError (ErrorOfValue e)]
  | None =>
      forall c,
        dict_get "content" items = Some c ->
        messages sh'
        = messages sh
          ++ [{| role := "user"; content := JStr prompt |};
              {| role := "assistant"; content := c |}] /\
        page sh' = page_before_response prompt sh ++ [PlaceholderWrite c]
  end.
Proof.
  intros Hsend. unfold main. cbn [show append_message client] in *.
  destruct (send_message (client sh) task_id prompt true reply n)
    as [r n'] eqn:Hrun.
  cbn [fst] in Hsend. subst r. cbv zeta.
  unfold show_response. cbn [contains getitem]. unfold dict_has.
  unfold page_before_response.
  destruct (dict_get "error" items) as [e|].
  - cbn [fst except_handler]. unfold show, append_message.
    cbn [messages page]. split; [reflexivity|].
    now rewrite <- !app_assoc.
  - intros c Hc. rewrite Hc.
    cbn [fst except_handler]. unfold show, append_message.
    cbn [messages page]. split.
    + now rewrite <- app_assoc.
    + now rewrite <- !app_assoc.
Qed.

Lemma shell_shows_content_unless_error_witness :
  messages
    (fst (main "count the customers" "task-1"
            (stream_reply [Payload (status_event ["partial"] None)])
            {| messages := []; client := local_client; page := [] |}
            fresh_net))
  = [{| role := "user"; content := JStr "count the customers" |};
     {| role := "assistant"; content := JStr "partial" |}]
  /\
  page
    (fst (main "count the customers" "task-1"
            (stream_reply [Payload (status_event ["partial"] None)])
            {| messages := []; client := local_client; page := [] |}
            fresh_net))
  = [ChatBlock "user"; Write (JStr "count the customers");
     ChatBlock "assistant"; PlaceholderText "Thinking...";
     PlaceholderWrite (JStr "partial")].
Proof.
  exact (shell_shows_content_unless_error "count the customers" "task-1"
           (stream_reply [Payload (status_event ["partial"] None)])
           {| messages := []; client := local_client; page := [] |}
           fresh_net
           [("status", JStr "incomplete"); ("content", JStr "partial")]
           eq_refl (JStr "partial") eq_refl).
Defined.

(** * Further properties of the client *)

(** ** The two paths, unfolded *)

Lemma streaming_on_200 (self : A2AClient) (task_id message : string)
    (reply : HttpReply) (n : Net) :
  status_code reply = 200%Z ->
  _send_streaming_request self task_id message reply n =
  (rmap JDict
     (fst (for_events (events reply) initial_response
             (requests_post (request_of self true task_id message) reply n))),
   snd (for_events (events reply) initial_response
          (requests_post (request_of self true task_id message) reply n))).
Proof.
  intros H200. unfold _send_streaming_request. rewrite H200.
  change (negb (200 =? 200)%Z) with false. cbv iota.
  cbn [request_of requests_post unread stream].
  match goal with
  | |- context [for_events ?evs ?fr ?m] => destruct (for_events evs fr m)
  end.
  reflexivity.
Qed.

Lemma streaming_on_failure (self : A2AClient) (task_id message : string)
    (reply : HttpReply) (n : Net) :
  status_code reply <> 200%Z ->
  _send_streaming_request self task_id message reply n =
  (Ok (http_error reply),
   read_text (requests_post (request_of self true task_id message) reply n)).
Proof.
  intros Hne. unfold _send_streaming_request.
  destruct (Z.eqb_spec (status_code reply) 200) as [H|_]; [contradiction|].
  reflexivity.
Qed.

Lemma for_events_sent (evs : list Event) (fr : pydict) (n : Net) :
  sent (snd (for_events evs fr n)) = sent n.
Proof.
  destruct (for_events evs fr n) as [r n'] eqn:H.
  now apply for_events_exit in H as [Hs _].
Qed.

(** ** One request per call *)

Lemma send_message_sent (self : A2AClient) (task_id message : string)
    (stream : bool) (reply : HttpReply) (n : Net) :
  sent (snd (send_message self task_id message stream reply n))
  = sent n ++ [request_of self stream task_id message].
Proof.
  unfold send_message. destruct stream.
  - destruct (Z.eq_dec (status_code reply) 200) as [H200|Hne].
    + rewrite (streaming_on_200 _ _ _ _ _ H200). cbn [snd].
      now rewrite for_events_sent.
    + now rewrite (streaming_on_failure _ _ _ _ _ Hne).
  - unfold _send_request.
    now destruct (negb (status_code reply =? 200)%Z).
Qed.

(** X1: a call of [send_message] posts exactly one request, on either
    path, whatever the server answers and whether the call returns or
    raises: the request built for that path goes out once, to the
    client's server, after the requests sent before. *)
Theorem send_message_posts_once (self : A2AClient) (task_id message : string)
    (stream : bool) (reply : HttpReply) (n : Net) :
  sent (snd (send_message self task_id message stream reply n))
  = sent n ++ [request_of self stream task_id message]
  /\ url (request_of self stream task_id message) = server_url self.
Proof.
  split; [apply send_message_sent|now destruct stream].
Qed.

(** X2: on a status other than 200 both paths return the same outcome,
    made of the status code and the body text alone: neither the JSON
    document nor the events of the body have a part in it. *)
Theorem http_failure_on_either_path (self : A2AClient)
    (task_id message : string) (stream : bool) (reply : HttpReply) (n : Net) :
  status_code reply <> 200%Z ->
  fst (send_message self task_id message stream reply n)
  = Ok (JDict
          [("error",
            JStr ("Error: " ++ str_of_int (status_code reply) ++ " - "
                  ++ text reply))]).
Proof.
  intros Hne. unfold send_message. destruct stream.
  - now rewrite (streaming_on_failure _ _ _ _ _ Hne).
  - unfold _send_request.
    destruct (Z.eqb_spec (status_code reply) 200) as [H|_]; [contradiction|].
    reflexivity.
Qed.

Lemma http_failure_on_either_path_witness :
  fst (send_message local_client "task-1" "count the customers" false
         {| status_code := 404; text := "Not Found";
            json_doc := Ok task_envelope; events := [] |} fresh_net)
  = Ok (JDict [("error", JStr "Error: 404 - Not Found")]).
Proof.
  apply (http_failure_on_either_path local_client "task-1"
           "count the customers" false
           {| status_code := 404; text := "Not Found";
              json_doc := Ok task_envelope; events := [] |} fresh_net).
  discriminate.
Defined.

(** ** The stream is read in order *)

(** X3: on a 200 response the events handed to the loop are a prefix
    of the stream, in arrival order, and what is left unread is the
    rest of it: nothing is skipped, repeated or read ahead, however
    the loop ends. *)
Theorem stream_is_read_in_order (self : A2AClient) (task_id message : string)
    (reply : HttpReply) (n : Net) :
  status_code reply = 200%Z ->
  yielded (snd (_send_streaming_request self task_id message reply n))
  ++ unread (snd (_send_streaming_request self task_id message reply n))
  = events reply.
Proof.
  intros H200. rewrite (streaming_on_200 _ _ _ _ _ H200). cbn [snd].
  match goal with
  | |- context [for_events ?evs ?fr ?m] =>
      destruct (for_events evs fr m) as [r n'] eqn:Hloop
  end.
  cbn [snd]. apply for_events_exit in Hloop as [_ [H|H]].
  - destruct H as (_ & _ & _ & Hu & Hy). rewrite Hu, Hy.
    cbn. now rewrite app_nil_r.
  - destruct H as (pre & ev & post & Hevs & Hu & Hy & _).
    rewrite Hu, Hy, Hevs. cbn. now rewrite <- app_assoc.
Qed.

Lemma stream_is_read_in_order_witness :
  yielded (snd (_send_streaming_request local_client "task-1"
                  "count the customers"
                  (stream_reply
                     [NoData; Payload (error_event boom); Garbled]) fresh_net))
  ++ unread (snd (_send_streaming_request local_client "task-1"
                    "count the customers"
                    (stream_reply
                       [NoData; Payload (error_event boom); Garbled])
                    fresh_net))
  = [NoData; Payload (error_event boom); Garbled].
Proof.
  exact (stream_is_read_in_order local_client "task-1" "count the customers"
           (stream_reply [NoData; Payload (error_event boom); Garbled])
           fresh_net eq_refl).
Defined.

(** ** The loop as a fold that can be resumed *)

(** X4: reading a stream in two pieces gives what reading it whole
    gives.  When the loop has read [pre] to its end and the status is
    still "incomplete", the loop on [pre ++ post] goes on from that
    outcome with [post], having been handed all of [pre]. *)
Theorem loop_resumes (pre post : list Event) (fr r : pydict) (n n' : Net) :
  status_of fr = Some (JStr "incomplete") ->
  for_events pre fr n = (Ok r, n') ->
  status_of r = Some (JStr "incomplete") ->
  for_events (pre ++ post) fr n
  = for_events post r
      {| sent := sent n; unread := post; yielded := yielded n ++ pre |}.
Proof.
  revert fr n. induction pre as [|ev pre IH]; intros fr n Hfr H Hr.
  - cbn in H. inversion H; subst. cbn [app].
    apply for_events_net; cbn; try reflexivity.
    now rewrite app_nil_r.
  - cbn [app for_events] in *.
    destruct (loop_body ev fr) as [[[|] fr1]|e] eqn:Hbody.
    + apply loop_body_status in Hbody.
      rewrite (for_events_net _ _ (yield ev (pre ++ post) n) (yield ev pre n))
        by reflexivity.
      rewrite (IH fr1 (yield ev pre n)); [|congruence|exact H|exact Hr].
      apply for_events_net; cbn; try reflexivity.
      now rewrite <- app_assoc.
    + apply loop_body_status in Hbody. inversion H; subst.
      destruct Hbody as [Hs|Hs]; unfold status_of in *; congruence.
    + discriminate.
Qed.

Lemma loop_resumes_witness :
  for_events
    ([Payload (status_event ["partial"] None); NoData]
     ++ [Payload (status_event ["SELECT 1"] (Some true)); NoData])
    initial_response fresh_net
  = for_events
      [Payload (status_event ["SELECT 1"] (Some true)); NoData]
      [("status", JStr "incomplete"); ("content", JStr "partial")]
      {| sent := [];
         unread := [Payload (status_event ["SELECT 1"] (Some true)); NoData];
         yielded := [Payload (status_event ["partial"] None); NoData] |}.
Proof.
  exact (loop_resumes
           [Payload (status_event ["partial"] None); NoData]
           [Payload (status_event ["SELECT 1"] (Some true)); NoData]
           initial_response
           [("status", JStr "incomplete"); ("content", JStr "partial")]
           fresh_net
           {| sent := []; unread := [];
              yielded := [Payload (status_event ["partial"] None); NoData] |}
           eq_refl eq_refl eq_refl).
Defined.

(** ** The keys of an outcome *)

Lemma between_events_content (t : json) (fr : pydict) :
  between_events fr -> between_events (dict_set "content" t fr).
Proof.
  intros [Hk Hs]. split; [|now rewrite status_of_set_content].
  destruct fr as [|[k1 v1] [|[k2 v2] [|]]]; try discriminate.
  cbn in Hk. inversion Hk; subst. reflexivity.
Qed.

Lemma for_events_outcome_keys (evs : list Event) (fr r : pydict) (n n' : Net) :
  between_events fr ->
  for_events evs fr n = (Ok r, n') ->
  (keys r = ["status"; "content"] /\
   (status_of r = Some (JStr "incomplete") \/
    status_of r = Some (JStr "complete")))
  \/
  (keys r = ["status"; "content"; "error"] /\
   status_of r = Some (JStr "error")).
Proof.
  revert fr n. induction evs as [|ev evs IH]; intros fr n Hfr H;
    cbn [for_events] in H.
  - inversion H; subst. destruct Hfr as [Hk Hs]. left. auto.
  - destruct (loop_body ev fr) as [[[|] fr1]|e] eqn:Hbody; try discriminate.
    + apply (loop_body_cases between_events between_events_content _ _ _ _ Hfr)
        in Hbody.
      exact (IH _ _ Hbody H).
    + apply (loop_body_cases between_events between_events_content _ _ _ _ Hfr)
        in Hbody.
      inversion H; subst. destruct Hbody as (fr0 & [Hk Hs] & Hr).
      destruct fr0 as [|[k1 v1] [|[k2 v2] [|]]]; try discriminate.
      cbn in Hk. inversion Hk; subst.
      destruct Hr as [-> | [e ->]]; [left|right]; split; auto; reflexivity.
Qed.

(** X5: whatever events a 200 response streams, an outcome the
    streaming path returns is an object with exactly the keys [status]
    and [content], and a third key [error] exactly when the status is
    "error": an outcome has an [error] field if and only if its status
    says so. *)
Theorem outcome_keys (self : A2AClient) (task_id message : string)
    (reply : HttpReply) (n : Net) (v : json) :
  status_code reply = 200%Z ->
  fst (_send_streaming_request self task_id message reply n) = Ok v ->
  exists fr,
    v = JDict fr /\
    ((keys fr = ["status"; "content"] /\
      (status_of fr = Some (JStr "incomplete") \/
       status_of fr = Some (JStr "complete")))
     \/
     (keys fr = ["status"; "content"; "error"] /\
      status_of fr = Some (JStr "error"))).
Proof.
  intros H200. rewrite (streaming_on_200 _ _ _ _ _ H200). cbn [fst].
  match goal with
  | |- context [for_events ?evs ?fr ?m] =>
      destruct (for_events evs fr m) as [r n'] eqn:Hloop
  end.
  cbn [fst]. destruct r as [fr|e]; cbn [rmap bind]; [|discriminate].
  intros Hv. inversion Hv; subst v. exists fr. split; [reflexivity|].
  eapply for_events_outcome_keys; [|exact Hloop]. split; reflexivity.
Qed.

Lemma outcome_keys_witness :
  exists fr,
    JDict [("status", JStr "error"); ("content", JStr "partial");
           ("error", boom)] = JDict fr /\
    ((keys fr = ["status"; "content"] /\
      (status_of fr = Some (JStr "incomplete") \/
       status_of fr = Some (JStr "complete")))
     \/
     (keys fr = ["status"; "content"; "error"] /\
      status_of fr = Some (JStr "error"))).
Proof.
  exact (outcome_keys local_client "task-1" "count the customers"
           (stream_reply
              [Payload (status_event ["partial"] None);
               Payload (error_event boom)]) fresh_net
           (JDict [("status", JStr "error"); ("content", JStr "partial");
                   ("error", boom)])
           eq_refl eq_refl).
Defined.

(** ** Payloads that are not as expected *)

Lemma for_events_raise (pre post : list Event) (ev : Event) (e : exn)
    (fr : pydict) (n : Net) :
  forallb quiet pre = true ->
  loop_body ev (set_texts (flat_map event_texts pre) fr) = Raise e ->
  for_events (pre ++ ev :: post) fr n =
  (Raise e,
   {| sent := sent n; unread := post;
      yielded := yielded n ++ pre ++ [ev] |}).
Proof.
  revert fr n. induction pre as [|ev0 pre IH]; intros fr n Hq Hbody;
    simpl in Hq.
  - cbn [app for_events]. cbn [flat_map] in Hbody.
    unfold set_texts in Hbody. cbn [fold_left] in Hbody. rewrite Hbody.
    reflexivity.
  - apply andb_true_iff in Hq as [He Hpre].
    cbn [app for_events]. rewrite (loop_body_quiet _ _ He).
    cbn [flat_map] in Hbody. rewrite set_texts_app in Hbody.
    rewrite (IH _ _ Hpre Hbody).
    unfold yield. cbn [sent yielded]. now rewrite <- app_assoc.
Qed.

Lemma loop_body_with_result (data result : json) (fr : pydict) :
  field "result" data = Some result ->
  loop_body (Payload data) fr =
  bind (status_update result fr) (fun fr1 =>
  bind (is_final result) (fun final =>
    if final
    then Ok (Break, dict_set "status" (JStr "complete") fr1)
    else error_block data fr1)).
Proof.
  intros Hres. destruct data as [| | | | | |items]; try discriminate.
  cbn [field] in Hres.
  unfold loop_body. cbn [has_data negb json_loads bind].
  unfold result_block. cbn [contains getitem]. unfold dict_has.
  rewrite Hres. cbn [bind].
  destruct (status_update result fr) as [fr1|e]; cbn [bind]; [|reflexivity].
  destruct (is_final result) as [[|]|e]; reflexivity.
Qed.

Lemma status_update_with_parts (result status message parts : json)
    (fr : pydict) :
  field "status" result = Some status ->
  field "message" status = Some message ->
  field "parts" message = Some parts ->
  status_update result fr = bind (iter parts) (fun ps => for_parts ps fr).
Proof.
  intros Hs Hm Hp.
  destruct result as [| | | | | |ritems]; try discriminate.
  destruct status as [| | | | | |sitems]; try discriminate.
  destruct message as [| | | | | |mitems]; try discriminate.
  cbn [field] in *.
  assert (Htruthy : truthy (JDict mitems) = true)
    by (destruct mitems; [discriminate Hp|reflexivity]).
  unfold status_update. cbn [contains getitem]. unfold dict_has.
  rewrite Hs. cbn [bind contains getitem]. unfold dict_has.
  rewrite Hm. cbn [bind]. rewrite Htruthy. cbn [getitem]. rewrite Hp.
  reflexivity.
Qed.

Lemma part_error_wf (part : json) :
  part_error part = None <-> wf_part part = true.
Proof.
  unfold part_error, wf_part, carries, field.
  destruct part as [| | | | | |items]; try (split; discriminate).
  destruct (dict_get "type" items) as [ty|]; [|split; discriminate].
  destruct (eq_str ty "text"); [|tauto].
  destruct (dict_get "text" items); split; auto; discriminate.
Qed.

Lemma for_parts_bad (good rest : list json) (bad : json) (e : exn)
    (fr : pydict) :
  forallb wf_part good = true ->
  part_error bad = Some e ->
  for_parts (good ++ bad :: rest) fr = Raise e.
Proof.
  revert fr. induction good as [|part good IH]; intros fr Hgood Hbad.
  - cbn [app for_parts]. unfold part_error in Hbad. unfold getitem.
    destruct bad as [| | | | | |items]; try (inversion Hbad; reflexivity).
    destruct (dict_get "type" items) as [ty|];
      [|inversion Hbad; reflexivity].
    cbn [bind]. destruct (eq_str ty "text"); [|discriminate].
    destruct (dict_get "text" items); [discriminate|].
    inversion Hbad. reflexivity.
  - simpl in Hgood. apply andb_true_iff in Hgood as [Hp Hgood].
    cbn [app for_parts].
    unfold wf_part, carries, field, getitem in *.
    destruct part as [| | | | | |items]; try discriminate.
    destruct (dict_get "type" items) as [ty|]; try discriminate.
    cbn [bind]. destruct (eq_str ty "text").
    + destruct (dict_get "text" items); try discriminate. cbn [bind].
      now apply IH.
    + now apply IH.
Qed.

Lemma loop_body_load_error (event : Event) (e : exn) (fr : pydict) :
  load_error event = Some e -> loop_body event fr = Raise e.
Proof.
  destruct event; cbn [load_error]; intros H; inversion H; reflexivity.
Qed.

(** X6: an event whose data [json.loads] rejects aborts the call.
    After keep-alives and well-formed updates, the call raises at that
    event what [json.loads] raised: the texts gathered so far are not
    returned, that event is the last one handed to the loop and the
    events after it stay unread. *)
Theorem unparseable_event_aborts (self : A2AClient) (task_id message : string)
    (reply : HttpReply) (n : Net) (pre post : list Event) (ev : Event)
    (e : exn) :
  status_code reply = 200%Z ->
  events reply = pre ++ ev :: post ->
  forallb quiet pre = true ->
  load_error ev = Some e ->
  fst (_send_streaming_request self task_id message reply n) = Raise e /\
  yielded (snd (_send_streaming_request self task_id message reply n))
  = pre ++ [ev] /\
  unread (snd (_send_streaming_request self task_id message reply n)) = post.
Proof.
  intros H200 Hevs Hpre He. rewrite (streaming_on_200 _ _ _ _ _ H200).
  rewrite Hevs.
  erewrite for_events_raise;
    [|exact Hpre|exact (loop_body_load_error _ _ _ He)].
  repeat split.
Qed.

Lemma unparseable_event_aborts_witness :
  fst (_send_streaming_request local_client "task-1" "count the customers"
         (stream_reply
            [Payload (status_event ["SELECT 1"] None); Garbled;
             Payload (status_event [] (Some true))]) fresh_net)
  = Raise JSONDecodeError.
Proof.
  exact (proj1 (unparseable_event_aborts local_client "task-1"
                  "count the customers"
                  (stream_reply
                     [Payload (status_event ["SELECT 1"] None); Garbled;
                      Payload (status_event [] (Some true))]) fresh_net
                  [Payload (status_event ["SELECT 1"] None)]
                  [Payload (status_event [] (Some true))]
                  Garbled JSONDecodeError
                  eq_refl eq_refl eq_refl eq_refl)).
Defined.

(** X7: a payload that parses to something other than an object is
    skipped, with [final_response] untouched, when both ["result" in
    data] and ["error" in data] are false (a string without these
    words, an array without these strings); in every other case (a
    number, a boolean, [null], a string or array that has one of them)
    the body raises a TypeError. *)
Theorem non_object_payload (v : json) (fr : pydict) :
  is_object v = false ->
  loop_body (Payload v) fr =
  match contains "result" v, contains "error" v with
  | Ok false, Ok false => Ok (Next, fr)
  | _, _ => Raise TypeError
  end.
Proof.
  intros Hv. unfold loop_body, result_block, error_block.
  cbn [has_data negb json_loads bind].
  destruct v as [| | | | s|xs|items]; try discriminate; try reflexivity;
    cbn [contains bind].
  - destruct (is_substring "result" s); [reflexivity|]. cbn [bind].
    destruct (is_substring "error" s); reflexivity.
  - destruct (existsb (fun x => eq_str x "result") xs); [reflexivity|].
    cbn [bind].
    destruct (existsb (fun x => eq_str x "error") xs); reflexivity.
Qed.

Lemma non_object_payload_witness :
  loop_body (Payload (JStr "ping")) initial_response
  = Ok (Next, initial_response)
  /\
  loop_body (Payload (JStr "internal error")) initial_response
  = Raise TypeError
  /\
  loop_body (Payload (JInt 0)) initial_response = Raise TypeError.
Proof.
  exact (conj (non_object_payload (JStr "ping") initial_response eq_refl)
           (conj (non_object_payload (JStr "internal error") initial_response
                    eq_refl)
                 (non_object_payload (JInt 0) initial_response eq_refl))).
Defined.

(** X8: a part the loop cannot read aborts the event.  When the parts
    of [result.status.message] are well formed up to some part and
    that part is not an object, has no [type], or has type "text" and
    no [text], the body raises (a TypeError, KeyError "type" or
    KeyError "text"), and the texts of the parts before it are lost
    with it. *)
Theorem bad_part_raises (data result status message : json)
    (good rest : list json) (bad : json) (e : exn) (fr : pydict) :
  field "result" data = Some result ->
  field "status" result = Some status ->
  field "message" status = Some message ->
  field "parts" message = Some (JList (good ++ bad :: rest)) ->
  forallb wf_part good = true ->
  part_error bad = Some e ->
  loop_body (Payload data) fr = Raise e.
Proof.
  intros Hr Hs Hm Hp Hgood Hbad.
  rewrite (loop_body_with_result _ _ _ Hr).
  rewrite (status_update_with_parts _ _ _ _ _ Hs Hm Hp).
  cbn [iter bind]. now rewrite (for_parts_bad _ _ _ _ _ Hgood Hbad).
Qed.

Lemma bad_part_raises_witness :
  loop_body
    (Payload
       (message_event
          (parts_message [text_part "SELECT 1"; JDict [("type", JStr "text")]])
          (Some (JBool true))))
    initial_response
  = Raise (KeyError "text").
Proof.
  exact (bad_part_raises
           (message_event
              (parts_message
                 [text_part "SELECT 1"; JDict [("type", JStr "text")]])
              (Some (JBool true)))
           (message_result
              (parts_message
                 [text_part "SELECT 1"; JDict [("type", JStr "text")]])
              (Some (JBool true)))
           (JDict
              [("message",
                parts_message
                  [text_part "SELECT 1"; JDict [("type", JStr "text")]])])
           (parts_message
              [text_part "SELECT 1"; JDict [("type", JStr "text")]])
           [text_part "SELECT 1"] []
           (JDict [("type", JStr "text")]) (KeyError "text") initial_response
           eq_refl eq_refl eq_refl eq_refl eq_refl eq_refl).
Defined.

Lemma status_update_with_message (result status m : json) (fr : pydict) :
  field "status" result = Some status ->
  field "message" status = Some m ->
  status_update result fr =
  if truthy m
  then bind (getitem m "parts") (fun p =>
       bind (iter p) (fun ps => for_parts ps fr))
  else Ok fr.
Proof.
  intros Hs Hm.
  destruct result as [| | | | | |ritems]; try discriminate.
  destruct status as [| | | | | |sitems]; try discriminate.
  cbn [field] in *.
  unfold status_update. cbn [contains getitem]. unfold dict_has.
  rewrite Hs. cbn [bind contains getitem]. unfold dict_has.
  rewrite Hm. cbn [bind]. destruct (truthy m); reflexivity.
Qed.

(** X9: what the [message] of a status update may be.  A falsy message
    ([null], [false], zero, an empty string, array or object) is
    skipped and [final_response] is left as it is; a truthy message
    that is not an object raises a TypeError; an object without
    [parts] raises KeyError "parts"; [parts] that cannot be iterated
    (a number, a boolean, [null]) raises a TypeError. *)
Theorem message_edge_cases (data result status m : json) (fr : pydict) :
  field "result" data = Some result ->
  field "status" result = Some status ->
  field "message" status = Some m ->
  (truthy m = false ->
   status_update result fr = Ok fr /\
   (field "final" result = None -> field "error" data = None ->
    loop_body (Payload data) fr = Ok (Next, fr)))
  /\
  (truthy m = true -> is_object m = false ->
   loop_body (Payload data) fr = Raise TypeError)
  /\
  (truthy m = true -> is_object m = true -> field "parts" m = None ->
   loop_body (Payload data) fr = Raise (KeyError "parts"))
  /\
  (forall p, field "parts" m = Some p -> iter p = Raise TypeError ->
   loop_body (Payload data) fr = Raise TypeError).
Proof.
  intros Hr Hs Hm.
  rewrite (loop_body_with_result _ _ _ Hr).
  pose proof (status_update_with_message _ _ _ fr Hs Hm) as Hupd.
  repeat split.
  - rewrite Hupd, H. reflexivity.
  - intros Hfin Herr. rewrite Hupd, H. cbn [bind].
    destruct result as [| | | | | |ritems]; try discriminate.
    destruct data as [| | | | | |items]; try discriminate.
    cbn [field] in *.
    unfold is_final, error_block. cbn [contains]. unfold dict_has.
    rewrite Hfin, Herr. reflexivity.
  - intros Ht Hobj. rewrite Hupd, Ht.
    destruct m; try discriminate; reflexivity.
  - intros Ht Hobj Hp. rewrite Hupd, Ht.
    destruct m as [| | | | | |mitems]; try discriminate.
    cbn [field] in Hp. cbn [getitem]. rewrite Hp. reflexivity.
  - intros p Hp Hiter. rewrite Hupd.
    destruct m as [| | | | | |mitems]; try discriminate.
    cbn [field] in Hp.
    assert (Htruthy : truthy (JDict mitems) = true)
      by (destruct mitems; [discriminate Hp|reflexivity]).
    rewrite Htruthy. cbn [getitem]. rewrite Hp. cbn [bind].
    rewrite Hiter. reflexivity.
Qed.

Lemma message_edge_cases_witness :
  loop_body (Payload (message_event (JDict []) None)) initial_response
  = Ok (Next, initial_response).
Proof.
  exact (proj2 (proj1 (message_edge_cases
                         (message_event (JDict []) None)
                         (message_result (JDict []) None)
                         (JDict [("message", JDict [])])
                         (JDict []) initial_response
                         eq_refl eq_refl eq_refl) eq_refl)
           eq_refl eq_refl).
Defined.

Lemma status_update_shaped (ritems : pydict) (fr : pydict) :
  match dict_get "status" ritems with
  | Some status => wf_status status
  | None => true
  end = true ->
  status_update (JDict ritems) fr
  = Ok (set_texts (result_texts (JDict ritems)) fr).
Proof.
  intros Hst.
  unfold status_update, result_texts, field, contains, dict_has, getitem.
  destruct (dict_get "status" ritems) as [status|]; cbn [bind];
    [|reflexivity].
  unfold wf_status in Hst.
  destruct status as [| | | | | |sitems]; try discriminate. cbn [bind].
  unfold dict_has.
  destruct (dict_get "message" sitems) as [message|]; cbn [bind];
    [|reflexivity].
  unfold wf_message in Hst.
  destruct message as [| | | | | |mitems]; try discriminate.
  - reflexivity.
  - destruct (dict_get "parts" mitems) as [ps|] eqn:Hparts; try discriminate.
    destruct ps as [| | | | |parts|]; try discriminate.
    assert (Htruthy : truthy (JDict mitems) = true)
      by (destruct mitems; [discriminate Hparts|reflexivity]).
    cbn [bind]. rewrite Htruthy. cbn [bind getitem iter].
    now apply for_parts_wf.
Qed.

(** X10: [result.final] is tested for truth, not for being [true].
    On a payload whose status is well formed, whatever [final] holds:
    the texts of the event are taken; if [final] is truthy (also [1],
    a non-empty string, a non-empty array) the status becomes
    "complete" and the loop breaks without looking at [error]; if it
    is absent or falsy (also [0], [null], an empty string) an [error]
    field ends the loop with status "error", and without one the loop
    goes on. *)
Theorem final_is_tested_for_truth (data : json) (fr : pydict) :
  shaped data = true ->
  loop_body (Payload data) fr =
  Ok (let fr1 := set_texts (event_texts (Payload data)) fr in
      if final_truthy data
      then (Break, dict_set "status" (JStr "complete") fr1)
      else match field "error" data with
           | Some e =>
               (Break, dict_set "error" e (dict_set "status" (JStr "error") fr1))
           | None => (Next, fr1)
           end).
Proof.
  intros Hsh. unfold shaped in Hsh.
  destruct data as [| | | | | |items]; try discriminate.
  destruct (dict_get "result" items) as [result|] eqn:Hres.
  - destruct result as [| | | | | |ritems]; try discriminate.
    rewrite (loop_body_with_result (JDict items) (JDict ritems) fr Hres).
    rewrite (status_update_shaped _ _ Hsh). cbn [bind].
    unfold final_truthy, event_texts. cbn [field]. rewrite Hres.
    cbn [field]. unfold is_final. cbn [contains getitem]. unfold dict_has.
    destruct (dict_get "final" ritems) as [v|]; cbn [bind].
    + destruct (truthy v); [reflexivity|].
      unfold error_block. cbn [contains getitem]. unfold dict_has.
      destruct (dict_get "error" items); reflexivity.
    + unfold error_block. cbn [contains getitem]. unfold dict_has.
      destruct (dict_get "error" items); reflexivity.
  - unfold loop_body. cbn [has_data negb json_loads bind].
    unfold result_block. cbn [contains]. unfold dict_has. rewrite Hres.
    cbn [bind]. unfold final_truthy, event_texts. cbn [field]. rewrite Hres.
    unfold error_block. cbn [contains getitem]. unfold dict_has.
    destruct (dict_get "error" items); reflexivity.
Qed.

Lemma final_is_tested_for_truth_witness :
  loop_body
    (Payload (message_event (parts_message [text_part "SELECT 1"])
                (Some (JInt 1))))
    initial_response
  = Ok (Break, [("status", JStr "complete"); ("content", JStr "SELECT 1")]).
Proof.
  exact (final_is_tested_for_truth
           (message_event (parts_message [text_part "SELECT 1"])
              (Some (JInt 1)))
           initial_response eq_refl).
Defined.

(** ** A turn of the shell *)

Lemma awaiting_eq (prompt : string) (sh : Shell) :
  show [ChatBlock "assistant"; PlaceholderText "Thinking..."]
    (show [ChatBlock "user"; Write (JStr prompt)]
       (append_message {| role := "user"; content := JStr prompt |}
          (show
             (flat_map (fun m => [ChatBlock (role m); Write (content m)])
                (messages sh)) sh)))
  = awaiting prompt sh.
Proof.
  unfold show, append_message, awaiting, page_before_response.
  cbn [messages client page]. f_equal. now rewrite <- !app_assoc.
Qed.

Lemma main_unfold (prompt task_id : string) (reply : HttpReply) (sh : Shell)
    (n : Net) :
  main prompt task_id reply sh n =
  (match fst (send_message (client sh) task_id prompt true reply n) with
   | Raise e =>
       show [PlaceholderError (ErrorOfException e)] (awaiting prompt sh)
   | Ok response =>
       except_handler (fst (show_response response (awaiting prompt sh)))
         (snd (show_response response (awaiting prompt sh)))
   end,
   snd (send_message (client sh) task_id prompt true reply n)).
Proof.
  unfold main. cbv zeta. rewrite !awaiting_eq.
  change (client (awaiting prompt sh)) with (client sh).
  destruct (send_message (client sh) task_id prompt true reply n) as [r n'].
  cbn [fst snd]. destruct r as [response|e]; [|reflexivity].
  destruct (show_response response (awaiting prompt sh)). reflexivity.
Qed.

(** The three ways [show_response] can go. *)
Lemma show_response_cases (response : json) (sh : Shell) :
  (exists e, show_response response sh = (Raise e, sh))
  \/ (exists v,
        show_response response sh
        = (Ok tt, show [PlaceholderError (ErrorOfValue v)] sh))
  \/ (exists c,
        show_response response sh
        = (Ok tt,
           append_message {| role := "assistant"; content := c |}
             (show [PlaceholderWrite c] sh))).
Proof.
  unfold show_response.
  destruct (contains "error" response) as [[|]|e].
  - destruct (getitem response "error") as [v|e].
    + right. left. now exists v.
    + left. now exists e.
  - destruct (getitem response "content") as [c|e].
    + right. right. now exists c.
    + left. now exists e.
  - left. now exists e.
Qed.

Lemma turn_cases (prompt task_id : string) (reply : HttpReply) (sh : Shell)
    (n : Net) :
  client (fst (main prompt task_id reply sh n)) = client sh /\
  ((exists c,
       page (fst (main prompt task_id reply sh n))
       = page_before_response prompt sh ++ [PlaceholderWrite c] /\
       messages (fst (main prompt task_id reply sh n))
       = messages sh
         ++ [{| role := "user"; content := JStr prompt |};
             {| role := "assistant"; content := c |}])
   \/
   (exists t,
       page (fst (main prompt task_id reply sh n))
       = page_before_response prompt sh ++ [PlaceholderError t] /\
       messages (fst (main prompt task_id reply sh n))
       = messages sh ++ [{| role := "user"; content := JStr prompt |}])).
Proof.
  rewrite main_unfold. cbn [fst].
  destruct (fst (send_message (client sh) task_id prompt true reply n))
    as [response|e].
  - destruct (show_response_cases response (awaiting prompt sh))
      as [[e H]|[[v H]|[c H]]]; rewrite H; cbn [fst snd except_handler].
    + split; [reflexivity|]. right. eexists. split; reflexivity.
    + split; [reflexivity|]. right. eexists. split; reflexivity.
    + split; [reflexivity|]. left. exists c.
      unfold append_message, show, awaiting. cbn [messages page client].
      split; [reflexivity|]. now rewrite <- app_assoc.
  - split; [reflexivity|]. right. eexists. split; reflexivity.
Qed.

(** X11: whatever the server answers, a turn ends in one of two ways:
    either a content is written in the placeholder and the history
    grows by the user message and an assistant message with that
    content, or one error is shown and the history grows by the user
    message alone.  The earlier history is kept as it was and the
    client is not replaced. *)
Theorem every_turn_ends_one_way (prompt task_id : string) (reply : HttpReply)
    (sh : Shell) (n : Net) :
  client (fst (main prompt task_id reply sh n)) = client sh /\
  ((exists c,
       page (fst (main prompt task_id reply sh n))
       = page_before_response prompt sh ++ [PlaceholderWrite c] /\
       messages (fst (main prompt task_id reply sh n))
       = messages sh
         ++ [{| role := "user"; content := JStr prompt |};
             {| role := "assistant"; content := c |}])
   \/
   (exists t,
       page (fst (main prompt task_id reply sh n))
       = page_before_response prompt sh ++ [PlaceholderError t] /\
       messages (fst (main prompt task_id reply sh n))
       = messages sh ++ [{| role := "user"; content := JStr prompt |}])).
Proof. apply turn_cases. Qed.

(** X12: an event that does not parse costs the turn.  Even when
    texts had arrived before it, the shell shows the decoding error
    and appends no assistant message. *)
Theorem unparseable_event_in_a_turn (prompt task_id : string)
    (reply : HttpReply) (sh : Shell) (n : Net) (pre post : list Event) :
  status_code reply = 200%Z ->
  events reply = pre ++ Garbled :: post ->
  forallb quiet pre = true ->
  page (fst (main prompt task_id reply sh n))
  = page_before_response prompt sh
    ++ [PlaceholderError (ErrorOfException JSONDecodeError)] /\
  messages (fst (main prompt task_id reply sh n))
  = messages sh ++ [{| role := "user"; content := JStr prompt |}].
Proof.
  intros H200 Hevs Hpre. rewrite main_unfold. cbn [fst].
  unfold send_message. rewrite (streaming_on_200 _ _ _ _ _ H200).
  rewrite Hevs. erewrite for_events_raise; [|exact Hpre|reflexivity].
  cbn [fst rmap bind]. split; reflexivity.
Qed.

Lemma unparseable_event_in_a_turn_witness :
  messages
    (fst (main "count the customers" "task-1"
            (stream_reply [Payload (status_event ["SELECT 1"] None); Garbled])
            {| messages := []; client := local_client; page := [] |}
            fresh_net))
  = [{| role := "user"; content := JStr "count the customers" |}].
Proof.
  exact (proj2 (unparseable_event_in_a_turn "count the customers" "task-1"
                  (stream_reply
                     [Payload (status_event ["SELECT 1"] None); Garbled])
                  {| messages := []; client := local_client; page := [] |}
                  fresh_net [Payload (status_event ["SELECT 1"] None)] []
                  eq_refl eq_refl eq_refl)).
Defined.

(** X13: a failed HTTP exchange in a turn.  On a status other than
    200 the shell shows the text made of the status code and the body,
    and appends no assistant message. *)
Theorem http_failure_in_a_turn (prompt task_id : string) (reply : HttpReply)
    (sh : Shell) (n : Net) :
  status_code reply <> 200%Z ->
  page (fst (main prompt task_id reply sh n))
  = page_before_response prompt sh
    ++ [PlaceholderError
          (ErrorOfValue
             (JStr ("Error: " ++ str_of_int (status_code reply) ++ " - "
                    ++ text reply)))] /\
  messages (fst (main prompt task_id reply sh n))
  = messages sh ++ [{| role := "user"; content := JStr prompt |}].
Proof.
  intros Hne. rewrite main_unfold. cbn [fst].
  unfold send_message. rewrite (streaming_on_failure _ _ _ _ _ Hne).
  cbn [fst]. split; reflexivity.
Qed.

Lemma http_failure_in_a_turn_witness :
  page
    (fst (main "count the customers" "task-1"
            {| status_code := 500; text := "Internal Server Error";
               json_doc := Raise JSONDecodeError; events := [] |}
            {| messages := []; client := local_client; page := [] |}
            fresh_net))
  = [ChatBlock "user"; Write (JStr "count the customers");
     ChatBlock "assistant"; PlaceholderText "Thinking...";
     PlaceholderError
       (ErrorOfValue (JStr "Error: 500 - Internal Server Error"))].
Proof.
  apply (http_failure_in_a_turn "count the customers" "task-1"
           {| status_code := 500; text := "Internal Server Error";
              json_doc := Raise JSONDecodeError; events := [] |}
           {| messages := []; client := local_client; page := [] |}
           fresh_net).
  discriminate.
Defined.

(** X14: an error reported by the server in a turn.  When an error
    event follows keep-alives and well-formed updates, the shell shows
    the error payload of the event; the texts received before it are
    neither shown nor appended to the history. *)
Theorem server_error_in_a_turn (prompt task_id : string) (reply : HttpReply)
    (sh : Shell) (n : Net) (pre post : list Event) (data e : json) :
  status_code reply = 200%Z ->
  events reply = pre ++ Payload data :: post ->
  forallb quiet pre = true ->
  well_formed data = true ->
  field "error" data = Some e ->
  carries "result" data = false ->
  page (fst (main prompt task_id reply sh n))
  = page_before_response prompt sh ++ [PlaceholderError (ErrorOfValue e)] /\
  messages (fst (main prompt task_id reply sh n))
  = messages sh ++ [{| role := "user"; content := JStr prompt |}].
Proof.
  intros H200 Hevs Hpre Hwf He Hres. rewrite main_unfold. cbn [fst].
  unfold send_message. rewrite (streaming_on_200 _ _ _ _ _ H200).
  rewrite Hevs. erewrite for_events_break; [|exact Hpre|].
  2:{ exact (loop_body_error_event data e _ Hwf He Hres). }
  cbn [fst rmap bind]. unfold show_response. cbn [contains getitem].
  unfold dict_has. rewrite dict_get_set_same. cbn [fst snd except_handler].
  split; reflexivity.
Qed.

Lemma server_error_in_a_turn_witness :
  page
    (fst (main "count the customers" "task-1"
            (stream_reply
               [Payload (status_event ["SELECT 1"] None);
                Payload (error_event boom)])
            {| messages := []; client := local_client; page := [] |}
            fresh_net))
  = [ChatBlock "user"; Write (JStr "count the customers");
     ChatBlock "assistant"; PlaceholderText "Thinking...";
     PlaceholderError (ErrorOfValue boom)].
Proof.
  exact (proj1 (server_error_in_a_turn "count the customers" "task-1"
                  (stream_reply
                     [Payload (status_event ["SELECT 1"] None);
                      Payload (error_event boom)])
                  {| messages := []; client := local_client; page := [] |}
                  fresh_net [Payload (status_event ["SELECT 1"] None)] []
                  (error_event boom) boom
                  eq_refl eq_refl eq_refl eq_refl eq_refl eq_refl)).
Defined.

(** X15: what a turn sends.  One request goes out, to the server of
    the shell's client; its body carries the prompt as typed, as the
    single text part of a user message, under the client's session id,
    with the task id both as the id of the call and as the id of the
    task. *)
Theorem turn_sends_the_prompt (prompt task_id : string) (reply : HttpReply)
    (sh : Shell) (n : Net) :
  exists req,
    sent (snd (main prompt task_id reply sh n)) = sent n ++ [req] /\
    url req = server_url (client sh) /\
    stream req = true /\
    field "method" (body req) = Some (JStr "tasks/sendSubscribe") /\
    field "id" (body req) = Some (JStr task_id) /\
    match field "params" (body req) with
    | Some params => field "id" params
    | None => None
    end = Some (JStr task_id) /\
    body_session (body req) = Some (JStr (session_id (client sh))) /\
    body_parts (body req)
    = Some (JList [JDict [("type", JStr "text"); ("text", JStr prompt)]]).
Proof.
  exists (request_of (client sh) true task_id prompt).
  rewrite main_unfold. cbn [snd]. rewrite send_message_sent.
  repeat split.
Qed.

(** ** The session over many runs *)

Lemma main_sent (prompt task_id : string) (reply : HttpReply) (sh : Shell)
    (n : Net) :
  sent (snd (main prompt task_id reply sh n))
  = sent n ++ [request_of (client sh) true task_id prompt].
Proof. rewrite main_unfold. cbn [snd]. apply send_message_sent. Qed.

Lemma sent_by_request_of (c : A2AClient) (task_id prompt : string) :
  sent_by c (request_of c true task_id prompt).
Proof. split; reflexivity. Qed.

Lemma script_runs_initialised (rs : list Run) (ms : list ChatMessage)
    (c : A2AClient) (n : Net) :
  st_client (fst (script_runs rs
                    {| st_messages := Some ms; st_client := Some c |} n))
  = Some c /\
  exists reqs ms',
    sent (snd (script_runs rs
                 {| st_messages := Some ms; st_client := Some c |} n))
    = sent n ++ reqs /\
    length reqs = length (submitted rs) /\
    Forall (sent_by c) reqs /\
    st_messages (fst (script_runs rs
                        {| st_messages := Some ms; st_client := Some c |} n))
    = Some (ms ++ ms') /\
    user_prompts ms' = submitted rs.
Proof.
  revert ms n. induction rs as [|r rs IH]; intros ms n.
  - cbn. split; [reflexivity|]. exists [], []. now rewrite !app_nil_r.
  - cbn [script_runs]. unfold script_run.
    cbn [init_session st_messages st_client].
    destruct (run_prompt r) as [prompt|] eqn:Hp.
    + destruct (main prompt (run_task r) (run_reply r)
                  {| messages := ms; client := c; page := [] |} n)
        as [sh n1] eqn:Hmain.
      pose proof (turn_cases prompt (run_task r) (run_reply r)
                    {| messages := ms; client := c; page := [] |} n) as Hturn.
      pose proof (main_sent prompt (run_task r) (run_reply r)
                    {| messages := ms; client := c; page := [] |} n) as Hsent.
      rewrite Hmain in Hturn, Hsent. cbn [fst snd client messages] in *.
      destruct Hturn as [Hc Hms]. rewrite Hc.
      destruct (IH (messages sh) n1) as (Hcl & reqs & ms' & Hs & Hl & Hf & Hm & Hu).
      split; [exact Hcl|].
      exists (request_of c true (run_task r) prompt :: reqs).
      assert (Hsub : submitted (r :: rs) = JStr prompt :: submitted rs)
        by (unfold submitted; cbn [flat_map]; now rewrite Hp).
      destruct Hms as [(a & _ & Hms)|(t & _ & Hms)].
      * exists ({| role := "user"; content := JStr prompt |}
                :: {| role := "assistant"; content := a |} :: ms').
        rewrite Hs, Hsent, Hm, Hms, Hsub, <- !app_assoc. cbn [app length].
        repeat split; auto.
        -- constructor; [apply sent_by_request_of|exact Hf].
        -- unfold user_prompts in *. cbn. now rewrite Hu.
      * exists ({| role := "user"; content := JStr prompt |} :: ms').
        rewrite Hs, Hsent, Hm, Hms, Hsub, <- !app_assoc. cbn [app length].
        repeat split; auto.
        -- constructor; [apply sent_by_request_of|exact Hf].
        -- unfold user_prompts in *. cbn. now rewrite Hu.
    + destruct (IH ms n) as (Hcl & reqs & ms' & Hs & Hl & Hf & Hm & Hu).
      split; [exact Hcl|]. exists reqs, ms'.
      assert (Hsub : submitted (r :: rs) = submitted rs)
        by (unfold submitted; cbn [flat_map]; now rewrite Hp).
      rewrite Hsub. auto.
Qed.

(** X16: the session is fixed by its first run.  Over any runs of the
    script from a new session, with or without a prompt, the client
    stays the one the first run made: every request goes to the URL
    and under the session id of that first run, whatever the sidebar
    holds or the uuids are later.  One request goes out per submitted
    prompt, and the user messages of the history are the submitted
    prompts, in order. *)
Theorem session_is_fixed_by_first_run (r0 : Run) (rs : list Run) (n : Net) :
  st_client (fst (script_runs (r0 :: rs) new_session n))
  = Some (new_A2AClient (run_url r0) (run_uuid r0)) /\
  exists reqs ms,
    sent (snd (script_runs (r0 :: rs) new_session n)) = sent n ++ reqs /\
    length reqs = length (submitted (r0 :: rs)) /\
    Forall (sent_by (new_A2AClient (run_url r0) (run_uuid r0))) reqs /\
    st_messages (fst (script_runs (r0 :: rs) new_session n)) = Some ms /\
    user_prompts ms = submitted (r0 :: rs).
Proof.
  pose proof (script_runs_initialised (r0 :: rs) []
                (new_A2AClient (run_url r0) (run_uuid r0)) n) as H.
  assert (Hfirst :
    script_runs (r0 :: rs) new_session n
    = script_runs (r0 :: rs)
        {| st_messages := Some [];
           st_client := Some (new_A2AClient (run_url r0) (run_uuid r0)) |} n).
  { cbn [script_runs]. unfold script_run.
    cbn [init_session new_session st_messages st_client]. reflexivity. }
  rewrite Hfirst. destruct H as (Hc & reqs & ms' & Hs & Hl & Hf & Hm & Hu).
  split; [exact Hc|]. exists reqs, ms'. auto.
Qed.

(** ** A turn that ends well *)

(** X17: the shell cannot tell a stream that stopped early from one
    that completed.  After keep-alives and well-formed updates, both
    when the stream just ends and when a final event follows, the
    shell writes the last text received (the empty string when there
    was none) and appends it to the history as the assistant's
    message. *)
Theorem answer_in_a_turn (prompt task_id : string) (reply : HttpReply)
    (sh : Shell) (n : Net) (pre : list Event) :
  status_code reply = 200%Z ->
  forallb quiet pre = true ->
  (events reply = pre ->
   page (fst (main prompt task_id reply sh n))
   = page_before_response prompt sh
     ++ [PlaceholderWrite (last (flat_map event_texts pre) (JStr ""))] /\
   messages (fst (main prompt task_id reply sh n))
   = messages sh
     ++ [{| role := "user"; content := JStr prompt |};
         {| role := "assistant";
            content := last (flat_map event_texts pre) (JStr "") |}])
  /\
  (forall data post,
      events reply = pre ++ Payload data :: post ->
      well_formed data = true ->
      carries "error" data = false ->
      final_true data = true ->
      page (fst (main prompt task_id reply sh n))
      = page_before_response prompt sh
        ++ [PlaceholderWrite
              (last (flat_map event_texts (pre ++ [Payload data]))
                 (JStr ""))] /\
      messages (fst (main prompt task_id reply sh n))
      = messages sh
        ++ [{| role := "user"; content := JStr prompt |};
            {| role := "assistant";
               content :=
                 last (flat_map event_texts (pre ++ [Payload data]))
                   (JStr "") |}]).
Proof.
  intros H200 Hpre.
  assert (Hshow : forall fr c,
             dict_get "error" fr = None ->
             dict_get "content" fr = Some c ->
             show_response (JDict fr) (awaiting prompt sh)
             = (Ok tt,
                append_message {| role := "assistant"; content := c |}
                  (show [PlaceholderWrite c] (awaiting prompt sh)))).
  { intros fr c He Hc. unfold show_response. cbn [contains getitem].
    unfold dict_has. now rewrite He, Hc. }
  split.
  - intros Hevs. rewrite main_unfold. cbn [fst].
    unfold send_message. rewrite (streaming_on_200 _ _ _ _ _ H200).
    rewrite Hevs, (for_events_quiet _ _ _ Hpre). cbn [fst rmap bind].
    rewrite (Hshow _ (last (flat_map event_texts pre) (JStr ""))).
    + cbn [fst snd except_handler]. unfold append_message, show, awaiting.
      cbn [messages page]. split; [reflexivity|]. now rewrite <- app_assoc.
    + now rewrite error_of_set_texts.
    + now apply content_of_set_texts.
  - intros data post Hevs Hwf Herr Hfin. rewrite main_unfold. cbn [fst].
    unfold send_message. rewrite (streaming_on_200 _ _ _ _ _ H200).
    rewrite Hevs. erewrite for_events_break; [|exact Hpre|].
    2:{ rewrite (loop_body_well_formed _ _ Hwf). cbv zeta. rewrite Hfin.
        reflexivity. }
    cbn [fst rmap bind].
    rewrite (Hshow _ (last (flat_map event_texts (pre ++ [Payload data]))
                        (JStr ""))).
    + cbn [fst snd except_handler]. unfold append_message, show, awaiting.
      cbn [messages page]. split; [reflexivity|]. now rewrite <- app_assoc.
    + rewrite dict_get_set_other by discriminate.
      now rewrite !error_of_set_texts.
    + rewrite dict_get_set_other by discriminate.
      rewrite <- set_texts_app, flat_map_app. cbn [flat_map].
      rewrite app_nil_r. now apply content_of_set_texts.
Qed.

Lemma answer_in_a_turn_witness :
  messages
    (fst (main "count the customers" "task-1"
            (stream_reply
               [Payload (status_event ["partial"] None);
                Payload (status_event ["SELECT 1"] (Some true)); Garbled])
            {| messages := []; client := local_client; page := [] |}
            fresh_net))
  = [{| role := "user"; content := JStr "count the customers" |};
     {| role := "assistant"; content := JStr "SELECT 1" |}].
Proof.
  exact (proj2 (proj2 (answer_in_a_turn "count the customers" "task-1"
                         (stream_reply
                            [Payload (status_event ["partial"] None);
                             Payload (status_event ["SELECT 1"] (Some true));
                             Garbled])
                         {| messages := []; client := local_client; page := [] |}
                         fresh_net [Payload (status_event ["partial"] None)]
                         eq_refl eq_refl)
                  (status_event ["SELECT 1"] (Some true)) [Garbled]
                  eq_refl eq_refl eq_refl eq_refl)).
Defined.

(** ** What the guards rule out *)

(** A subscript behind its [in] guard cannot miss the key. *)
Lemma guarded_getitem (k : string) (v : json) (e : exn) :
  contains k v = Ok true -> getitem v k = Raise e -> e = TypeError.
Proof.
  destruct v as [| | | | | |items]; cbn [contains getitem];
    try (intros _ H; now inversion H).
  unfold dict_has. destruct (dict_get k items); [discriminate 2|discriminate 1].
Qed.

Lemma contains_raises (k : string) (v : json) (e : exn) :
  contains k v = Raise e -> e = TypeError.
Proof.
  destruct v; cbn [contains]; intros H; now inversion H.
Qed.

Lemma getitem_raises (k : string) (v : json) (e : exn) :
  getitem v k = Raise e -> e = TypeError \/ e = KeyError k.
Proof.
  destruct v as [| | | | | |items]; cbn [getitem];
    try (intros H; inversion H; now left).
  destruct (dict_get k items); [discriminate|].
  intros H. inversion H. now right.
Qed.

Lemma for_parts_raises (parts : list json) (fr : pydict) (e : exn) :
  for_parts parts fr = Raise e ->
  e = TypeError \/ e = KeyError "type" \/ e = KeyError "text".
Proof.
  revert fr. induction parts as [|part parts IH]; intros fr H;
    cbn [for_parts] in H; [discriminate|].
  destruct (getitem part "type") as [ty|e0] eqn:Ety; cbn [bind] in H.
  - destruct (eq_str ty "text"); [|now apply IH in H].
    destruct (getitem part "text") as [t|e1] eqn:Etx; cbn [bind] in H.
    + now apply IH in H.
    + inversion H; subst. apply getitem_raises in Etx. tauto.
  - inversion H; subst. apply getitem_raises in Ety. tauto.
Qed.

Lemma status_update_raises (result : json) (fr : pydict) (e : exn) :
  status_update result fr = Raise e ->
  e = TypeError \/ e = KeyError "parts" \/ e = KeyError "type"
  \/ e = KeyError "text".
Proof.
  unfold status_update. intros H.
  destruct (contains "status" result) as [[|]|e0] eqn:E1; cbn [bind] in H;
    [| discriminate | inversion H; subst; left; eapply contains_raises; eauto].
  destruct (getitem result "status") as [status|e0] eqn:E2; cbn [bind] in H;
    [| inversion H; subst; left; eapply guarded_getitem; eauto].
  destruct (contains "message" status) as [[|]|e0] eqn:E3; cbn [bind] in H;
    [| discriminate | inversion H; subst; left; eapply contains_raises; eauto].
  destruct (getitem status "message") as [message|e0] eqn:E4; cbn [bind] in H;
    [| inversion H; subst; left; eapply guarded_getitem; eauto].
  destruct (truthy message); [|discriminate].
  destruct (getitem message "parts") as [p|e0] eqn:E5; cbn [bind] in H;
    [| inversion H; subst; apply getitem_raises in E5; tauto].
  destruct (iter p) as [ps|e0] eqn:E6; cbn [bind] in H.
  - apply for_parts_raises in H. tauto.
  - inversion H; subst. left. destruct p; cbn [iter] in E6;
      now inversion E6.
Qed.

Lemma is_final_raises (result : json) (e : exn) :
  is_final result = Raise e -> e = TypeError.
Proof.
  unfold is_final. intros H.
  destruct (contains "final" result) as [[|]|e0] eqn:E1; cbn [bind] in H;
    [| discriminate | inversion H; subst; eapply contains_raises; eauto].
  destruct (getitem result "final") as [f|e0] eqn:E2; cbn [bind] in H;
    [discriminate|].
  inversion H; subst. eapply guarded_getitem; eauto.
Qed.

Lemma error_block_raises (data : json) (fr : pydict) (e : exn) :
  error_block data fr = Raise e -> e = TypeError.
Proof.
  unfold error_block. intros H.
  destruct (contains "error" data) as [[|]|e0] eqn:E1; cbn [bind] in H;
    [| discriminate | inversion H; subst; eapply contains_raises; eauto].
  destruct (getitem data "error") as [v|e0] eqn:E2; cbn [bind] in H;
    [discriminate|].
  inversion H; subst. eapply guarded_getitem; eauto.
Qed.

Lemma loop_body_raises (event : Event) (fr : pydict) (e : exn) :
  loop_body event fr = Raise e ->
  load_error event = Some e \/ e = TypeError \/ e = KeyError "parts"
  \/ e = KeyError "type" \/ e = KeyError "text".
Proof.
  unfold loop_body. destruct (has_data event) eqn:Hdata; cbn [negb];
    [|discriminate].
  destruct (json_loads event) as [data|e0] eqn:Eload; cbn [bind].
  2:{ intros H. inversion H; subst. left.
      destruct event; cbn in Eload, Hdata; try discriminate;
        now inversion Eload. }
  destruct (result_block data fr) as [[c fr1]|e0] eqn:Eres; cbn [bind].
  - destruct c; [|discriminate].
    intros H. apply error_block_raises in H. tauto.
  - intros H. inversion H; subst. clear H. right.
    unfold result_block in Eres.
    destruct (contains "result" data) as [[|]|e0] eqn:E1; cbn [bind] in Eres;
      [| discriminate
       | inversion Eres; subst; left; eapply contains_raises; eauto].
    destruct (getitem data "result") as [result|e0] eqn:E2;
      cbn [bind] in Eres;
      [| inversion Eres; subst; left; eapply guarded_getitem; eauto].
    destruct (status_update result fr) as [fr2|e0] eqn:E3; cbn [bind] in Eres;
      [| inversion Eres; subst; now apply status_update_raises in E3].
    destruct (is_final result) as [[|]|e0] eqn:E4; cbn [bind] in Eres;
      try discriminate.
    inversion Eres; subst. left. eapply is_final_raises; eauto.
Qed.

(** X18: the [in] guards do their work.  Whatever the events, when
    the loop raises a KeyError the key is "parts", "type" or "text":
    the keys that are read behind an [in] test ("result", "status",
    "message", "final", "error") are never missed. *)
Theorem guarded_keys_are_never_missed (evs : list Event) (fr : pydict)
    (n : Net) (k : string) :
  fst (for_events evs fr n) = Raise (KeyError k) ->
  k = "parts" \/ k = "type" \/ k = "text".
Proof.
  revert fr n. induction evs as [|ev evs IH]; intros fr n H;
    cbn [for_events] in H.
  - discriminate.
  - destruct (loop_body ev fr) as [[[|] fr1]|e0] eqn:Hbody.
    + eapply IH; exact H.
    + discriminate.
    + cbn [fst] in H. inversion H; subst.
      apply loop_body_raises in Hbody.
      destruct Hbody as [Hl|[Ht|[Hp|[Hy|Hx]]]].
      * destruct ev; discriminate.
      * discriminate.
      * inversion Hp. now left.
      * inversion Hy. right. now left.
      * inversion Hx. right. now right.
Qed.

Lemma guarded_keys_are_never_missed_witness :
  fst (for_events
         [NoData;
          Payload (message_event (JDict [("role", JStr "agent")]) None)]
         initial_response fresh_net)
  = Raise (KeyError "parts")
  /\ ("parts" = "parts" \/ "parts" = "type" \/ "parts" = "text").
Proof.
  exact (conj eq_refl
           (guarded_keys_are_never_missed
              [NoData;
               Payload (message_event (JDict [("role", JStr "agent")]) None)]
              initial_response fresh_net "parts" eq_refl)).
Defined.
